(** * recsplain.similarity_helpers: the nearest-neighbour index adapters

    A shallow embedding of [src/recsplain/similarity_helpers.py]: the
    backend selector [parse_server_name] and the four adapter classes
    [FaissIndexFactory], [LazyHnsw], [SciKitNearestNeighbors] and
    [RedisIndex].

    Python objects are records, a method is a function from the object's
    state to a result and the state it leaves behind, and a raised
    exception is a result of its own: the mutations made before the raise
    stay in the state, as they do in Python. *)

From stdpp Require Import base decidable option list strings pretty gmap sorting.
From Stdlib Require Ascii.

(** ** Python exceptions and the method monad *)

Inductive exn : Type :=
  | TypeError (msg : string)
  | ValueError (msg : string)
  | RuntimeError (msg : string)
  | AttributeError (msg : string)
  | NotImplementedError (msg : string)
  | IndexError (msg : string)
  | OverflowError (msg : string)
  | ResponseError (msg : string)
  | Exception (msg : string).

Inductive res (A : Type) : Type :=
  | Ok (a : A)
  | Raise (e : exn).
Arguments Ok {A} a.
Arguments Raise {A} e.

(** A method of an object whose state has type [S]. *)
Definition Py (S A : Type) : Type := S -> res A * S.

Definition ret {S A} (a : A) : Py S A := fun s => (Ok a, s).
Definition raise {S A} (e : exn) : Py S A := fun s => (Raise e, s).
Definition bind {S A B} (m : Py S A) (k : A -> Py S B) : Py S B :=
  fun s => match m s with
           | (Ok a, s') => k a s'
           | (Raise e, s') => (Raise e, s')
           end.
Definition get {S} : Py S S := fun s => (Ok s, s).
Definition put {S} (s : S) : Py S unit := fun _ => (Ok tt, s).
Definition modify {S} (f : S -> S) : Py S unit := fun s => (Ok tt, f s).
(** Runs a method of a part of the state (the base object, a field). *)
Definition lift {S T A} (proj : S -> T) (upd : T -> S -> S) (m : Py T A) : Py S A :=
  fun s => let '(r, t) := m (proj s) in (r, upd t s).

Declare Scope py_scope.
Delimit Scope py_scope with py.
Notation "x <- m ;; k" := (bind m (fun x => k))
  (at level 100, m at next level, right associativity) : py_scope.
Notation "m ;;; k" := (bind m (fun _ => k))
  (at level 100, right associativity) : py_scope.

Definition raises {S A} (m : Py S A) (s : S) : Prop := exists e, (m s).1 = Raise e.
Definition state_after {S A} (m : Py S A) (s : S) : S := (m s).2.

(** ** The backend selector *)

(** The four adapter classes, as the values [parse_server_name] returns. *)
Inductive adapter : Type :=
  | LazyHnsw
  | FaissIndexFactory
  | RedisIndex
  | SciKitNearestNeighbors.

#[global] Instance adapter_eq_dec : EqDecision adapter.
Proof. solve_decision. Defined.

(** [available_engines] is the module-level set filled by the imports at
    the top of the file: it starts as [{"sklearn"}] and gains "hnswlib",
    "faiss" and "redis" when the import of each succeeds. *)
Definition parse_server_name (available_engines : gset string) (sname : string) : adapter :=
  if decide (sname ∈ ["hnswlib"; "hnsw"]) then
    if decide ("hnswlib" ∈ available_engines) then LazyHnsw
    else SciKitNearestNeighbors
  else if decide (sname ∈ ["faiss"; "flatfaiss"]) then
    if decide ("faiss" ∈ available_engines) then FaissIndexFactory
    else SciKitNearestNeighbors
  else if decide (sname ∈ ["redis"]) then
    if decide ("redis" ∈ available_engines) then RedisIndex
    else SciKitNearestNeighbors
  else SciKitNearestNeighbors.

(** [str.lower] on the ASCII range. *)
Definition lower_ascii (c : Ascii.ascii) : Ascii.ascii :=
  let n := Ascii.nat_of_ascii c in
  if (65 <=? n)%nat && (n <=? 90)%nat then Ascii.ascii_of_nat (n + 32) else c.

Fixpoint lower (s : string) : string :=
  match s with
  | EmptyString => EmptyString
  | String c s' => String (lower_ascii c) (lower s')
  end.

Definition known_aliases : list string :=
  ["hnswlib"; "hnsw"; "faiss"; "flatfaiss"; "redis"].

(** ** What the adapters leave to numpy and to the engines

    The adapters never compute with a vector: they hand it to numpy for
    the conversion to float32 and to the engine for storage and search.
    These operations are kept abstract; every statement below holds for
    all their interpretations. *)
Class Engines : Type := {
  (** a Python float *)
  float : Type;
  (** [np.array(x).astype(np.float32)], on one coordinate *)
  astype_float32 : float -> float;
  (** [np.array(datum).astype(np.float32).tobytes()] *)
  tobytes : list float -> string;
  (** the division of a float32 vector by its norm, which hnswlib applies
      to every vector it stores in the cosine space *)
  normalize_vector : list float -> list float;
  (** the k-NN search of hnswlib on the stored points: labels and distances *)
  hnsw_knn : string -> gmap Z (list float) -> list (list float) -> nat ->
             res (list (list Z) * list (list float));
  (** a fitted scikit-learn estimator, [fit] and [kneighbors] *)
  sk_model : Type;
  sklearn_fit : string -> list (list float) -> res sk_model;
  sklearn_kneighbors : sk_model -> list (list float) -> nat ->
                       res (list (list float) * list (list nat));
  (** whether [faiss.index_factory] accepts a dimension and a description *)
  faiss_accepts : nat -> string -> bool;
  (** the reply of the redis search module to a KNN query on the stored
      hashes: the documents' [vector_score] and [item_id] *)
  redis_ft_search : gmap string (gmap string string) -> string -> string ->
                    res (list (string * string))
}.

Fixpoint for_each {S A} (f : A -> Py S unit) (l : list A) : Py S unit :=
  match l with
  | [] => ret tt
  | x :: l' => (f x ;;; for_each f l')%py
  end.

(** ** hnswlib.Index, the base class of [LazyHnsw]

    The engine is not part of this repository. The model keeps what the
    adapter relies on, after hnswlib's Python bindings: the index is
    created without storage; [init_index] allocates it once, capping [M]
    at 10000 and raising [ef_construction] to [M]; the properties
    [max_elements] and [element_count] read 0 before that; [resize_index]
    sets the capacity to the requested size, refuses a size below the
    number of stored elements and fails to reallocate to a size of 0;
    [add_items] converts its arguments with numpy and checks their shape
    before it stores the first point, replaces the vector of a label that
    is already stored and refuses a new label when the storage is full.
    numpy reads the empty list as a one-dimensional array, which the
    bindings take for a single vector of no coordinates; it refuses a
    batch of vectors of different lengths, and it refuses an id outside
    the unsigned 64-bit range of the engine's labels. In the cosine space
    the engine stores every vector normalised. [resize_index] and
    [add_items] on an index without storage are undefined in the engine;
    the adapter never reaches them, and the model lets them raise. *)
Module Hnswlib.
Section Engine.
Context `{Engines}.

(** The largest label, [2^64 - 1]. *)
Definition uint64_max : Z := 18446744073709551615.

Definition is_uint64 (i : Z) : bool := (0 <=? i)%Z && (i <=? uint64_max)%Z.

(** The cap of the engine on [M]. *)
Definition M_cap : nat := 100 * 100.

Record Index : Type := mkIndex {
  space : string;
  dim : nat;
  index_inited : bool;
  max_elements_ : nat;
  M_ : nat;
  ef_construction_ : nat;
  ef_ : nat;
  cur_l : nat;
  label_lookup : gmap Z (list float)
}.

Definition __init__ (space : string) (dim : nat) : res Index :=
  if decide (space ∈ ["l2"; "ip"; "cosine"]) then
    Ok (mkIndex space dim false 0 0 0 10 0 ∅)
  else Raise (RuntimeError "Space name must be one of l2, ip, or cosine.").

Definition max_elements (ix : Index) : nat :=
  if index_inited ix then max_elements_ ix else 0.

Definition element_count (ix : Index) : nat :=
  if index_inited ix then size (label_lookup ix) else 0.

Definition init_index (max_elements M ef_construction : nat) : Py Index unit :=
  fun ix =>
    if index_inited ix then
      (Raise (RuntimeError "The index is already initiated."), ix)
    else
      (Ok tt, mkIndex (space ix) (dim ix) true max_elements (Nat.min M M_cap)
                      (Nat.max ef_construction (Nat.min M M_cap)) (ef_ ix) 0 ∅).

Definition resize_index (new_size : nat) : Py Index unit :=
  fun ix =>
    if negb (index_inited ix) then
      (Raise (RuntimeError "The index is not initiated."), ix)
    else if decide (new_size < size (label_lookup ix)) then
      (Raise (RuntimeError
         "Cannot resize, max element is less than the current number of elements"),
       ix)
    else if decide (new_size = 0) then
      (Raise (RuntimeError
         "Not enough memory: resizeIndex failed to allocate base layer"), ix)
    else
      (Ok tt, mkIndex (space ix) (dim ix) (index_inited ix) new_size (M_ ix)
                      (ef_construction_ ix) (ef_ ix) (cur_l ix) (label_lookup ix)).

Definition set_label_lookup (m : gmap Z (list float)) (ix : Index) : Index :=
  mkIndex (space ix) (dim ix) (index_inited ix) (max_elements_ ix) (M_ ix)
          (ef_construction_ ix) (ef_ ix) (cur_l ix) m.

Definition set_cur_l (n : nat) (ix : Index) : Index :=
  mkIndex (space ix) (dim ix) (index_inited ix) (max_elements_ ix) (M_ ix)
          (ef_construction_ ix) (ef_ ix) n (label_lookup ix).

(** The vector as the engine stores it: converted to float32, and
    normalised in the cosine space. *)
Definition stored_vector (ix : Index) (v : list float) : list float :=
  if decide (space ix = "cosine") then normalize_vector (astype_float32 <$> v)
  else astype_float32 <$> v.

(** One point of a batch. *)
Definition add_point (p : Z * list float) : Py Index unit :=
  fun ix =>
    let '(label, v) := p in
    match label_lookup ix !! label with
    | Some _ =>
        (Ok tt, set_label_lookup (<[label := stored_vector ix v]> (label_lookup ix)) ix)
    | None =>
        if decide (max_elements_ ix <= size (label_lookup ix)) then
          (Raise (RuntimeError "The number of elements exceeds the specified limit"), ix)
        else
          (Ok tt, set_label_lookup (<[label := stored_vector ix v]> (label_lookup ix)) ix)
    end.

(** The shape of the batch as a numpy array, rows and coordinates: the
    empty list is one row of no coordinates, and a batch whose vectors
    differ in length is no array. *)
Definition array_shape (data : list (list float)) : option (nat * nat) :=
  match data with
  | [] => Some (1, 0)
  | v :: rest =>
      if forallb (fun w => length w =? length v)%nat rest
      then Some (length data, length v) else None
  end.

Definition array_rows (data : list (list float)) : list (list float) :=
  match data with
  | [] => [[]]
  | _ => data
  end.

(** The labels of a batch: the given ids, or the running counter. *)
Definition batch_labels (ix : Index) (rows : nat) (ids : option (list Z)) : list Z :=
  match ids with
  | Some l => l
  | None => (fun i => Z.of_nat (cur_l ix + i)) <$> seq 0 rows
  end.

Definition add_items (data : list (list float)) (ids : option (list Z))
    (num_threads : Z) : Py Index unit :=
  fun ix =>
    if negb (index_inited ix) then
      (Raise (RuntimeError "The index is not initiated."), ix)
    else
      match array_shape data with
      | None => (Raise (ValueError "setting an array element with a sequence."), ix)
      | Some (rows, features) =>
          if negb (features =? dim ix)%nat then
            (Raise (RuntimeError "Wrong dimensionality of the vectors"), ix)
          else if negb (forallb is_uint64 (default [] ids)) then
            (Raise (OverflowError "Python integer out of bounds for uint64"), ix)
          else if negb (length (batch_labels ix rows ids) =? rows)%nat then
            (Raise (RuntimeError "Wrong dimensionality of the labels"), ix)
          else
            for_each add_point (zip (batch_labels ix rows ids) (array_rows data))
                     (set_cur_l (cur_l ix + rows) ix)
      end.

Fixpoint get_data (m : gmap Z (list float)) (ids : list Z) : res (list (list float)) :=
  match ids with
  | [] => Ok []
  | i :: ids' =>
      match m !! i with
      | None => Raise (RuntimeError "Label not found")
      | Some v =>
          match get_data m ids' with
          | Ok vs => Ok (v :: vs)
          | Raise e => Raise e
          end
      end
  end.

Definition get_items (ids : option (list Z)) : Py Index (list (list float)) :=
  fun ix =>
    match ids with
    | None => (Ok [], ix)
    | Some l =>
        if forallb is_uint64 l then (get_data (label_lookup ix) l, ix)
        else (Raise (OverflowError "Python integer out of bounds for uint64"), ix)
    end.

Definition knn_query (data : list (list float)) (k : nat) (num_threads : Z)
    : Py Index (list (list Z) * list (list float)) :=
  fun ix => (hnsw_knn (space ix) (label_lookup ix) data k, ix).

Definition set_ef (ef : nat) : Py Index unit :=
  fun ix =>
    (Ok tt, mkIndex (space ix) (dim ix) (index_inited ix) (max_elements_ ix) (M_ ix)
                    (ef_construction_ ix) ef (cur_l ix) (label_lookup ix)).
End Engine.
End Hnswlib.

(** An argument with a default value: [None] when the caller omits it. *)
Definition default_arg {A} (d : A) (a : option A) : A :=
  match a with Some x => x | None => d end.

(** ** class LazyHnsw(hnswlib.Index) *)
Module LazyHnsw.
Section Adapter.
Context `{Engines}.

Record t : Type := mk {
  base : Hnswlib.Index;
  init_max_elements : nat;
  init_ef_construction : nat;
  init_M : nat
}.

Definition set_base (b : Hnswlib.Index) (self : t) : t :=
  mk b (init_max_elements self) (init_ef_construction self) (init_M self).

(** A method of the base class, run on [self]. *)
Definition super {A} (m : Py Hnswlib.Index A) : Py t A := lift base set_base m.

(** The inherited properties [self.max_elements] and [self.element_count]. *)
Definition max_elements (self : t) : nat := Hnswlib.max_elements (base self).
Definition element_count (self : t) : nat := Hnswlib.element_count (base self).

Definition __init__ (space : string) (dim : nat) (index_factory : option string)
    (max_elements ef_construction M : option nat) : res t :=
  match Hnswlib.__init__ space dim with
  | Raise e => Raise e
  | Ok b => Ok (mk b (default_arg 1024 max_elements)
                     (default_arg 200 ef_construction)
                     (default_arg 16 M))
  end.

Definition init (max_elements : option nat) : Py t unit :=
  (self <- get ;;
   let max_elements := default_arg 0 max_elements in
   let max_elements :=
     if decide (max_elements = 0) then init_max_elements self else max_elements in
   super (Hnswlib.init_index max_elements (init_M self) (init_ef_construction self)))%py.

Definition add_items (data : list (list float)) (ids : option (list Z))
    (num_threads : option Z) : Py t unit :=
  (self <- get ;;
   (if decide (max_elements self = 0) then init None else ret tt) ;;;
   self <- get ;;
   (if decide (max_elements self < length data + element_count self) then
      super (Hnswlib.resize_index
               (max_list [length data + element_count self; max_elements self]))
    else ret tt) ;;;
   super (Hnswlib.add_items data ids (default_arg (-1)%Z num_threads)))%py.

Definition add (data : list (list float)) : Py t unit :=
  add_items data None None.

Definition get_items (ids : option (list Z)) : Py t (list (list float)) :=
  (self <- get ;;
   if decide (max_elements self = 0) then ret []
   else super (Hnswlib.get_items ids))%py.

Definition knn_query (data : list (list float)) (k : option nat)
    (num_threads : option Z) : Py t (list (list Z) * list (list float)) :=
  (self <- get ;;
   if decide (max_elements self = 0) then ret ([], [])
   else super (Hnswlib.knn_query data (default_arg 1 k)
                                 (default_arg (-1)%Z num_threads)))%py.

Definition search (data : list (list float)) (k : option nat)
    : Py t (list (list float) * list (list Z)) :=
  (r <- knn_query data (Some (default_arg 1 k)) None ;;
   let '(I_, D_) := r in
   ret (D_, I_))%py.

Definition resize_index (size : nat) : Py t unit :=
  (self <- get ;;
   if decide (max_elements self = 0) then init (Some size)
   else super (Hnswlib.resize_index size))%py.

Definition set_ef (ef : nat) : Py t unit :=
  (self <- get ;;
   if decide (max_elements self = 0) then
     put (mk (base self) (init_max_elements self) ef (init_M self))
   else super (Hnswlib.set_ef ef))%py.

Definition get_max_elements : Py t nat :=
  (self <- get ;; ret (max_elements self))%py.

Definition get_current_count : Py t nat :=
  (self <- get ;; ret (element_count self))%py.

Definition __len__ : Py t nat := get_current_count.

(** The index once storage of [capacity] elements has been allocated for
    it with the stored construction parameters, still empty. *)
Definition allocated (capacity : nat) (self : t) : t :=
  let b := base self in
  set_base
    (Hnswlib.mkIndex (Hnswlib.space b) (Hnswlib.dim b) true capacity
       (Nat.min (init_M self) Hnswlib.M_cap)
       (Nat.max (init_ef_construction self) (Nat.min (init_M self) Hnswlib.M_cap))
       (Hnswlib.ef_ b) 0 ∅) self.

(** The index with its storage resized to [capacity] elements. *)
Definition with_capacity (capacity : nat) (self : t) : t :=
  let b := base self in
  set_base
    (Hnswlib.mkIndex (Hnswlib.space b) (Hnswlib.dim b) (Hnswlib.index_inited b) capacity
       (Hnswlib.M_ b) (Hnswlib.ef_construction_ b) (Hnswlib.ef_ b) (Hnswlib.cur_l b)
       (Hnswlib.label_lookup b)) self.

(** The contract operations, as commands of a client. *)
Inductive op : Type :=
  | OpInit (max_elements : option nat)
  | OpAddItems (data : list (list float)) (ids : option (list Z))
  | OpAdd (data : list (list float))
  | OpGetItems (ids : option (list Z))
  | OpSearch (data : list (list float)) (k : option nat)
  | OpResizeIndex (size : nat)
  | OpSetEf (ef : nat)
  | OpGetMaxElements
  | OpGetCurrentCount.

(** The state an operation leaves, whether it returns or raises. *)
Definition step (o : op) (self : t) : t :=
  match o with
  | OpInit n => state_after (init n) self
  | OpAddItems data ids => state_after (add_items data ids None) self
  | OpAdd data => state_after (add data) self
  | OpGetItems ids => state_after (get_items ids) self
  | OpSearch data k => state_after (search data k) self
  | OpResizeIndex size => state_after (resize_index size) self
  | OpSetEf ef => state_after (set_ef ef) self
  | OpGetMaxElements => state_after get_max_elements self
  | OpGetCurrentCount => state_after get_current_count self
  end.


(** The index after a run of operations. *)
Definition run (ops : list op) (self : t) : t :=
  foldl (fun s o => step o s) self ops.
End Adapter.
End LazyHnsw.

(** The character "\n" of a Python literal. *)
Definition newline : string := String (Ascii.ascii_of_nat 10) EmptyString.

(** [sys.stderr], as the strings written to it. *)
Definition stderr : Type := list string.
Definition stderr_write (line : string) : Py stderr unit :=
  modify (fun err => err ++ [line]).

(** ** faiss, as far as the constructor of [FaissIndexFactory] uses it *)
Module Faiss.
Inductive MetricType : Type := METRIC_INNER_PRODUCT | METRIC_L2.

#[global] Instance MetricType_eq_dec : EqDecision MetricType.
Proof. solve_decision. Defined.

Record Index : Type := mkIndex {
  d : nat;
  description : string;
  metric_type : MetricType;
  (** wrapped by [IndexIDMap2] *)
  id_map2 : bool
}.

(** [faiss.index_factory]; the module-level name [faiss] is [None] when
    the import failed, and the attribute access raises. *)
Definition index_factory `{Engines} (faiss_imported : bool) (dim : nat)
    (description : string) (metric : MetricType) : res Index :=
  if negb faiss_imported then
    Raise (AttributeError "'NoneType' object has no attribute 'index_factory'")
  else if faiss_accepts dim description then
    Ok (mkIndex dim description metric false)
  else Raise (RuntimeError "could not parse the index description").

Definition IndexIDMap2 (index : Index) : Index :=
  mkIndex (d index) (description index) (metric_type index) true.
End Faiss.

(** ** class FaissIndexFactory *)
Module FaissIndexFactory.
Section Adapter.
Context `{Engines}.

Record t : Type := mk { index : Faiss.Index }.

Definition __init__ (faiss_imported : bool) (space : string) (dim : nat)
    (index_factory : string) : Py stderr t :=
  let index_factory := if decide (index_factory = "") then "Flat" else index_factory in
  (index <-
     (if decide (space ∈ ["ip"; "cosine"]) then
        match Faiss.index_factory faiss_imported dim index_factory
                Faiss.METRIC_INNER_PRODUCT with
        | Raise e => raise e
        | Ok index =>
            (if decide (space = "cosine") then
               stderr_write ("cosine is not supported yet, falling back to dot" +:+ newline)
             else ret tt) ;;;
            ret index
        end
      else if decide (space = "l2") then
        match Faiss.index_factory faiss_imported dim index_factory Faiss.METRIC_L2 with
        | Raise e => raise e
        | Ok index => ret index
        end
      else raise (TypeError (space +:+ " is not supported"))) ;;
   ret (mk (Faiss.IndexIDMap2 index)))%py.

Definition get_max_elements : Py t Z := ret (-1)%Z.
End Adapter.
End FaissIndexFactory.

(** ** sklearn.neighbors.NearestNeighbors

    The estimator's constructor only records its parameters; fitting and
    querying are the engine's. *)
Module NearestNeighbors.
Section Engine.
Context `{Engines}.

Record t : Type := mk {
  metric : string;
  n_jobs : Z;
  n_neighbors : nat;
  fit_result : option sk_model
}.

Definition fit (X : list (list float)) : Py t unit :=
  fun self =>
    match sklearn_fit (metric self) X with
    | Raise e => (Raise e, self)
    | Ok m => (Ok tt, mk (metric self) (n_jobs self) (n_neighbors self) (Some m))
    end.

Definition kneighbors (X : list (list float)) (k : nat)
    : Py t (list (list float) * list (list nat)) :=
  fun self =>
    match fit_result self with
    | None => (Raise (ValueError "This NearestNeighbors instance is not fitted yet."), self)
    | Some m => (sklearn_kneighbors m X k, self)
    end.
End Engine.
End NearestNeighbors.

(** [list.index]: the position of the first occurrence. *)
Fixpoint list_index (x : Z) (l : list Z) : option nat :=
  match l with
  | [] => None
  | y :: l' => if decide (y = x) then Some 0 else S <$> list_index x l'
  end.

(** ** class SciKitNearestNeighbors *)
Module SciKitNearestNeighbors.
Section Adapter.
Context `{Engines}.

Record t : Type := mk {
  space : string;
  dim : nat;
  items : list (list float);
  ids : list Z;
  fitted : bool;
  index : NearestNeighbors.t
}.

Definition __init__ (space : string) (dim : nat) (index_factory : option string)
    : Py stderr t :=
  (space' <-
     (if decide (space = "ip") then
        stderr_write "Warning: ip is not supported by sklearn, falling back to cosine" ;;;
        ret "cosine"
      else ret space) ;;
   ret (mk space' dim [] [] false (NearestNeighbors.mk space' (-1)%Z 10 None)))%py.

Definition __len__ : Py t nat :=
  (self <- get ;; ret (length (items self)))%py.

(** [self.items[self.ids.index(item)]] *)
Definition __itemgetter__ (item : Z) : Py t (list float) :=
  (self <- get ;;
   match list_index item (ids self) with
   | None => raise (ValueError (pretty item +:+ " is not in list"))
   | Some j =>
       match items self !! j with
       | None => raise (IndexError "list index out of range")
       | Some v => ret v
       end
   end)%py.

Definition set_index (ix : NearestNeighbors.t) (self : t) : t :=
  mk (space self) (dim self) (items self) (ids self) (fitted self) ix.

Definition set_fitted (b : bool) (self : t) : t :=
  mk (space self) (dim self) (items self) (ids self) b (index self).

Definition init : Py t unit :=
  (self <- get ;;
   lift index set_index (NearestNeighbors.fit (items self)) ;;;
   modify (set_fitted true))%py.

Definition add_items (data : list (list float)) (ids' : option (list Z))
    (num_threads : option Z) : Py t unit :=
  (modify (fun self => mk (space self) (dim self) (items self ++ data) (ids self)
                          (fitted self) (index self)) ;;;
   match ids' with
   | None => raise (TypeError "'NoneType' object is not iterable")
   | Some l =>
       modify (fun self => mk (space self) (dim self) (items self) (ids self ++ l)
                              (fitted self) (index self))
   end ;;;
   modify (set_fitted false))%py.

(** The list comprehension of [get_items]. *)
Fixpoint get_items_loop (l : list Z) : Py t (list (list float)) :=
  match l with
  | [] => ret []
  | i :: l' => (v <- __itemgetter__ i ;; vs <- get_items_loop l' ;; ret (v :: vs))%py
  end.

Definition get_items (ids' : option (list Z)) : Py t (list (list float)) :=
  match ids' with
  | None => raise (TypeError "'NoneType' object is not iterable")
  | Some l => get_items_loop l
  end.

Definition search (data : list (list float)) (k : option nat)
    : Py t (list (list float) * list (list nat)) :=
  (self <- get ;;
   (if negb (fitted self) then
      lift index set_index (NearestNeighbors.fit (items self)) ;;;
      modify (set_fitted true)
    else ret tt) ;;;
   r <- lift index set_index (NearestNeighbors.kneighbors data (default_arg 1 k)) ;;
   let '(scores, idx) := r in
   ret (scores, idx))%py.

Definition get_max_elements : Py t Z := ret (-1)%Z.

Definition get_current_count : Py t nat :=
  (self <- get ;; ret (length (items self)))%py.
End Adapter.
End SciKitNearestNeighbors.

(** ** The redis server and the client's pipeline

    The server is outside the repository: it is modelled as the hashes it
    stores and the search index declared over them. A pipeline queues
    commands on the client and sends them when [execute] is called. *)
Module Redis.
Inductive Field : Type :=
  | VectorField (name algorithm : string) (attributes : list (string * string))
  | TextField (name : string)
  | TagField (name : string).

Record Server : Type := mkServer {
  hashes : gmap string (gmap string string);
  ft_index : option (list Field)
}.

Inductive Command : Type :=
  | HSET (key : string) (mapping : list (string * string)).

Record Pipeline : Type := mkPipeline {
  transaction : bool;
  command_stack : list Command
}.

(** [redis.pipeline(transaction=True)] *)
Definition pipeline (transaction : option bool) : Pipeline :=
  mkPipeline (default_arg true transaction) [].

Definition hset (key : string) (mapping : list (string * string)) (p : Pipeline)
    : Pipeline :=
  mkPipeline (transaction p) (command_stack p ++ [HSET key mapping]).

Definition command_key (c : Command) : string :=
  match c with HSET key _ => key end.

Definition run (srv : Server) (c : Command) : Server :=
  match c with
  | HSET key mapping =>
      let h := default ∅ (hashes srv !! key) in
      let h' := foldl (fun h fv => <[fv.1 := fv.2]> h) h mapping in
      mkServer (<[key := h']> (hashes srv)) (ft_index srv)
  end.

Definition execute (p : Pipeline) (srv : Server) : Server :=
  foldl run srv (command_stack p).

Definition hget (key field : string) (srv : Server) : option string :=
  hashes srv !! key ≫= fun h => h !! field.

Definition create_index (fields : list Field) : Py Server unit :=
  fun srv =>
    match ft_index srv with
    | Some _ => (Raise (ResponseError "Index already exists"), srv)
    | None => (Ok tt, mkServer (hashes srv) (Some fields))
    end.
End Redis.

(** ** class RedisIndex *)
Module RedisIndex.
Section Adapter.
Context `{Engines}.

Record t : Type := mk {
  space : string;
  dim : nat;
  max_elements : nat;
  ef_construction : nat;
  M : nat;
  redis : Redis.Server;
  pipe : option Redis.Pipeline
}.

Definition set_redis (srv : Redis.Server) (self : t) : t :=
  mk (space self) (dim self) (max_elements self) (ef_construction self) (M self)
     srv (pipe self).

Definition set_pipe (p : option Redis.Pipeline) (self : t) : t :=
  mk (space self) (dim self) (max_elements self) (ef_construction self) (M self)
     (redis self) p.

Definition init_hnsw : Py t unit :=
  (self <- get ;;
   lift redis set_redis
     (Redis.create_index
        [ Redis.VectorField "embedding" "HNSW"
            [ ("TYPE", "FLOAT32"); ("DIM", pretty (dim self));
              ("DISTANCE_METRIC", space self);
              ("INITIAL_CAP", pretty (max_elements self));
              ("M", pretty (M self));
              ("EF_CONSTRUCTION", pretty (ef_construction self)) ];
          Redis.TextField "item_id";
          Redis.TagField "partition" ]))%py.

(** [server] is the server the credentials designate. *)
Definition __init__ (space : string) (dim : nat) (index_factory : option string)
    (redis_credentials : option (list (string * string)))
    (max_elements ef_construction M : option nat) (server : Redis.Server) : res t :=
  match redis_credentials with
  | None => Raise (Exception "Redis credentials must be provided")
  | Some _ =>
      let self := mk space dim (default_arg 1024 max_elements)
                     (default_arg 200 ef_construction) (default_arg 16 M)
                     server None in
      match init_hnsw self with
      | (Ok _, self') => Ok self'
      | (Raise e, _) => Raise e
      end
  end.

Definition __enter__ : Py t unit :=
  modify (set_pipe (Some (Redis.pipeline None))).

(** [self.pipe.execute()], on whatever [self.pipe] holds. *)
Definition pipe_execute : Py t unit :=
  (self <- get ;;
   match pipe self with
   | None => raise (AttributeError "'NoneType' object has no attribute 'execute'")
   | Some p => put (set_pipe (Some (Redis.mkPipeline (Redis.transaction p) []))
                             (set_redis (Redis.execute p (redis self)) self))
   end)%py.

Definition __exit__ : Py t unit :=
  (pipe_execute ;;;
   modify (set_pipe None))%py.

Definition get_current_count : Py t nat :=
  raise (NotImplementedError "RedisIndex is not implemented yet").

Definition __len__ : Py t nat := get_current_count.

(** [super().get_items([item])[0]]: the class has no base with [get_items]. *)
Definition __itemgetter__ (item : Z) : Py t string :=
  raise (AttributeError "'super' object has no attribute 'get_items'").

Definition search (data : list float) (k : option nat) (partition : option string)
    : Py t (list string * list string) :=
  (self <- get ;;
   let k := default_arg 1 k in
   let query_vector := tobytes data in
   let p := match partition with
            | Some partition => "(@partition:{" +:+ partition +:+ "})"
            | None => "*"
            end in
   let q := p +:+ "=>[KNN " +:+ pretty k +:+ " embedding $vec_param AS vector_score]" in
   match redis_ft_search (Redis.hashes (redis self)) q query_vector with
   | Raise e => raise e
   | Ok docs => ret (fst <$> docs, snd <$> docs)
   end)%py.

(** [self.pipe.hset(key, mapping=...)], on whatever [self.pipe] holds. *)
Definition pipe_hset (key : string) (mapping : list (string * string)) : Py t unit :=
  (self <- get ;;
   match pipe self with
   | None => raise (AttributeError "'NoneType' object has no attribute 'hset'")
   | Some p => put (set_pipe (Some (Redis.hset key mapping p)) self)
   end)%py.

(** The body of the loop of [add_items]. *)
Definition add_item (partition : string) (p : list float * Z) : Py t unit :=
  let '(datum, id) := p in
  let key := "item:" +:+ pretty id in
  let emb := tobytes datum in
  pipe_hset key [("embedding", emb); ("item_id", pretty id); ("partition", partition)].

(** The commands the loop of [add_items] queues for a batch. *)
Definition batch_commands (partition : string) (data : list (list float))
    (ids : list Z) : list Redis.Command :=
  (fun p : list float * Z =>
     Redis.HSET ("item:" +:+ pretty p.2)
       [("embedding", tobytes p.1); ("item_id", pretty p.2); ("partition", partition)])
  <$> zip data ids.

Definition add_items (data : list (list float)) (ids : option (list Z))
    (partition : option string) : Py t unit :=
  (modify (set_pipe (Some (Redis.pipeline (Some false)))) ;;;
   let partition := default_arg "" partition in
   match ids with
   | None => raise (TypeError "'NoneType' object is not iterable")
   | Some ids => for_each (add_item partition) (zip data ids)
   end ;;;
   pipe_execute ;;;
   modify (set_pipe None))%py.

Fixpoint get_items_loop (ids : list Z) (srv : Redis.Server) : list (option string) :=
  match ids with
  | [] => []
  | id :: ids' => Redis.hget ("item:" +:+ pretty id) "embedding" srv
                  :: get_items_loop ids' srv
  end.

Definition get_items (ids : option (list Z)) : Py t (list (option string)) :=
  (self <- get ;;
   match ids with
   | None => raise (TypeError "'NoneType' object is not iterable")
   | Some ids => ret (get_items_loop ids (redis self))
   end)%py.

Definition get_max_elements : Py t nat :=
  (self <- get ;; ret (max_elements self))%py.
End Adapter.
End RedisIndex.

(** ** An interpretation of the engines for the closed examples

    Coordinates are integers (float32 holds the small ones exactly), the
    byte string of a vector lists its coordinates, and the searches answer
    nothing: no example below depends on a search result, and none uses
    the cosine space, whose normalisation is left undone. *)
Definition example_engines : Engines := {|
  float := Z;
  astype_float32 := fun x => x;
  tobytes := fun v => foldr (fun x s => pretty x +:+ ";" +:+ s) "" v;
  normalize_vector := fun v => v;
  hnsw_knn := fun _ _ _ _ => Ok ([], []);
  sk_model := unit;
  sklearn_fit := fun _ _ => Ok tt;
  sklearn_kneighbors := fun _ _ _ => Ok ([], []);
  faiss_accepts := fun _ _ => true;
  redis_ft_search := fun _ _ _ => Ok []
|}.

(** [LazyHnsw("l2", 4, max_elements=...)], as constructed. *)
Definition example_lazy_hnsw (max_elements : option nat) : @LazyHnsw.t example_engines :=
  LazyHnsw.mk (Hnswlib.mkIndex "l2" 4 false 0 0 0 10 0 ∅)
              (default_arg 1024 max_elements) 200 16.

(** [SciKitNearestNeighbors("l2", 4)], as constructed. *)
Definition example_scikit : @SciKitNearestNeighbors.t example_engines :=
  SciKitNearestNeighbors.mk "l2" 4 [] [] false (NearestNeighbors.mk "l2" (-1)%Z 10 None).

(** [RedisIndex("L2", 4, redis_credentials=...)] on an empty server, as
    constructed. *)
Definition example_redis : RedisIndex.t :=
  RedisIndex.mk "L2" 4 1024 200 16
    (Redis.mkServer ∅
       (Some [ Redis.VectorField "embedding" "HNSW"
                 [ ("TYPE", "FLOAT32"); ("DIM", "4"); ("DISTANCE_METRIC", "L2");
                   ("INITIAL_CAP", "1024"); ("M", "16"); ("EF_CONSTRUCTION", "200") ];
               Redis.TextField "item_id";
               Redis.TagField "partition" ]))
    None.

Definition example_data : list (list (@float example_engines)) :=
  [[0; 0; 0; 0]; [1; 1; 1; 1]; [2; 2; 2; 2]]%Z.


(** * The selector *)

(** Membership in the literal lists and sets of the selector. *)
Ltac elems :=
  rewrite ?elem_of_cons, ?elem_of_nil, ?elem_of_union, ?elem_of_singleton in *;
  intuition (subst; first [reflexivity | discriminate | congruence | tauto]).

Lemma known_alias_lower (s : string) : s ∈ known_aliases -> lower s = s.
Proof.
  unfold known_aliases. rewrite !elem_of_cons, elem_of_nil.
  intros [-> | [-> | [-> | [-> | [-> | []]]]]]; reflexivity.
Qed.

Lemma parse_server_name_unknown (available_engines : gset string) (s : string) :
  s ∉ known_aliases -> parse_server_name available_engines s = SciKitNearestNeighbors.
Proof.
  unfold known_aliases, parse_server_name. intros Hs.
  repeat (destruct (decide _) as [Hin | _]; [exfalso; apply Hs; elems |]).
  reflexivity.
Qed.

(** C1: resolution is a total function of the name; a known alias whose
    engine is available gets that engine's adapter, a known alias whose
    engine is missing and any other name get the scikit-learn adapter. *)
Theorem parse_server_name_fallback (available_engines : gset string) (sname : string) :
  (exists c, parse_server_name available_engines sname = c) /\
  (sname ∈ ["hnswlib"; "hnsw"] -> "hnswlib" ∈ available_engines ->
     parse_server_name available_engines sname = LazyHnsw) /\
  (sname ∈ ["faiss"; "flatfaiss"] -> "faiss" ∈ available_engines ->
     parse_server_name available_engines sname = FaissIndexFactory) /\
  (sname ∈ ["redis"] -> "redis" ∈ available_engines ->
     parse_server_name available_engines sname = RedisIndex) /\
  (sname ∈ ["hnswlib"; "hnsw"] -> "hnswlib" ∉ available_engines ->
     parse_server_name available_engines sname = SciKitNearestNeighbors) /\
  (sname ∈ ["faiss"; "flatfaiss"] -> "faiss" ∉ available_engines ->
     parse_server_name available_engines sname = SciKitNearestNeighbors) /\
  (sname ∈ ["redis"] -> "redis" ∉ available_engines ->
     parse_server_name available_engines sname = SciKitNearestNeighbors) /\
  (sname ∉ known_aliases ->
     parse_server_name available_engines sname = SciKitNearestNeighbors).
Proof.
  split; [eexists; reflexivity |].
  repeat split; try apply parse_server_name_unknown;
    unfold parse_server_name; intros Hs Ha;
    repeat (destruct (decide _) as [? | ?]);
    try reflexivity; try contradiction; exfalso; elems.
Qed.

Lemma parse_server_name_fallback_witness :
  parse_server_name {["sklearn"; "hnswlib"]} "hnsw" = LazyHnsw /\
  parse_server_name {["sklearn"; "hnswlib"]} "flatfaiss" = SciKitNearestNeighbors /\
  parse_server_name {["sklearn"; "hnswlib"]} "annoy" = SciKitNearestNeighbors.
Proof.
  pose proof (parse_server_name_fallback {["sklearn"; "hnswlib"]} "hnsw")
    as (_ & Hhnsw & _).
  pose proof (parse_server_name_fallback {["sklearn"; "hnswlib"]} "flatfaiss")
    as (_ & _ & _ & _ & _ & Hfaiss & _).
  pose proof (parse_server_name_fallback {["sklearn"; "hnswlib"]} "annoy")
    as (_ & _ & _ & _ & _ & _ & _ & Hother).
  split; [| split].
  - apply Hhnsw; [elems | elems].
  - apply Hfaiss; [elems | intros Hin; elems].
  - apply Hother. unfold known_aliases. intros Hin. elems.
Defined.

(** C7, as the claim states it, fails: "HNSW" resolves to the
    scikit-learn adapter although its lower-cased form resolves to
    [LazyHnsw]. *)
Lemma parse_server_name_case_counterexample :
  parse_server_name {["sklearn"; "hnswlib"]} "HNSW" = SciKitNearestNeighbors /\
  lower "HNSW" = "hnsw" /\
  parse_server_name {["sklearn"; "hnswlib"]} (lower "HNSW") = LazyHnsw /\
  parse_server_name {["sklearn"; "hnswlib"]} "HNSW"
    <> parse_server_name {["sklearn"; "hnswlib"]} (lower "HNSW").
Proof.
  assert (H1 : parse_server_name {["sklearn"; "hnswlib"]} "HNSW" = SciKitNearestNeighbors).
  { apply parse_server_name_unknown. unfold known_aliases. intros Hin. elems. }
  assert (H2 : parse_server_name {["sklearn"; "hnswlib"]} (lower "HNSW") = LazyHnsw).
  { change (lower "HNSW") with "hnsw". unfold parse_server_name.
    repeat (destruct (decide _) as [? | ?]); try reflexivity; exfalso; elems. }
  split; [exact H1 |]. split; [reflexivity |]. split; [exact H2 |].
  rewrite H1, H2. discriminate.
Qed.

(** C7, amended: the comparison is exact. A name that differs from its
    lower-cased form is no alias and resolves to the scikit-learn adapter,
    so a name and its lower-cased form resolve alike exactly when the name
    is already lower case or the lower-cased form itself resolves to the
    scikit-learn adapter. *)
Theorem parse_server_name_case_sensitive (available_engines : gset string) (sname : string) :
  (sname <> lower sname ->
     parse_server_name available_engines sname = SciKitNearestNeighbors) /\
  (parse_server_name available_engines sname
     = parse_server_name available_engines (lower sname)
   <-> sname = lower sname \/
       parse_server_name available_engines (lower sname) = SciKitNearestNeighbors).
Proof.
  assert (Hup : sname <> lower sname ->
                parse_server_name available_engines sname = SciKitNearestNeighbors).
  { intros Hne. apply parse_server_name_unknown. intros Hin.
    apply Hne. symmetry. by apply known_alias_lower. }
  split; [exact Hup |]. split.
  - intros Heq. destruct (decide (sname = lower sname)) as [He | Hne]; [by left |].
    right. rewrite <- Heq. by apply Hup.
  - intros [He | Hs].
    + by rewrite <- He.
    + destruct (decide (sname = lower sname)) as [He | Hne].
      * by rewrite <- He.
      * rewrite Hs. by apply Hup.
Qed.

Lemma parse_server_name_case_sensitive_witness :
  parse_server_name {["sklearn"; "hnswlib"; "faiss"]} "Faiss" = SciKitNearestNeighbors.
Proof.
  apply (proj1 (parse_server_name_case_sensitive {["sklearn"; "hnswlib"; "faiss"]} "Faiss")).
  discriminate.
Defined.

(** * The capacity-bounded adapter *)

Section LazyHnswFacts.
Context `{Engines}.

Lemma add_point_frame (p : Z * list float) (ix : Hnswlib.Index) :
  let ix' := state_after (Hnswlib.add_point p) ix in
  Hnswlib.index_inited ix' = Hnswlib.index_inited ix /\
  Hnswlib.max_elements_ ix' = Hnswlib.max_elements_ ix /\
  Hnswlib.dim ix' = Hnswlib.dim ix.
Proof.
  destruct p as [label v]. unfold state_after, Hnswlib.add_point.
  destruct (Hnswlib.label_lookup ix !! label); [simpl; auto |].
  destruct (decide _); simpl; auto.
Qed.

Lemma for_each_add_point_frame (ps : list (Z * list float)) (ix : Hnswlib.Index) :
  let ix' := state_after (for_each Hnswlib.add_point ps) ix in
  Hnswlib.index_inited ix' = Hnswlib.index_inited ix /\
  Hnswlib.max_elements_ ix' = Hnswlib.max_elements_ ix /\
  Hnswlib.dim ix' = Hnswlib.dim ix.
Proof.
  revert ix. induction ps as [| p ps IH]; intros ix; [simpl; auto |].
  pose proof (add_point_frame p ix) as Hp.
  unfold state_after in *. simpl. unfold bind.
  destruct (Hnswlib.add_point p ix) as [[[] | e] ix1]; simpl in *; [| exact Hp].
  destruct (IH ix1) as (IH1 & IH2 & IH3). destruct Hp as (Hp1 & Hp2 & Hp3).
  repeat split; congruence.
Qed.

(** The engine's [add_items] raises before it stores anything, or runs
    through the points of the batch. *)
Lemma hnswlib_add_items_cases data ids nt (ix : Hnswlib.Index) :
  (exists e, Hnswlib.add_items data ids nt ix = (Raise e, ix)) \/
  (exists rows,
     Hnswlib.add_items data ids nt ix
     = for_each Hnswlib.add_point
         (zip (Hnswlib.batch_labels ix rows ids) (Hnswlib.array_rows data))
         (Hnswlib.set_cur_l (Hnswlib.cur_l ix + rows) ix)).
Proof.
  unfold Hnswlib.add_items.
  destruct (negb (Hnswlib.index_inited ix)); [left; eauto |].
  destruct (Hnswlib.array_shape data) as [[rows features] |]; [| left; eauto].
  destruct (negb (features =? Hnswlib.dim ix)); [left; eauto |].
  destruct (negb (forallb Hnswlib.is_uint64 (default [] ids))); [left; eauto |].
  destruct (negb _); [left; eauto | right; eauto].
Qed.

(** The engine's [add_items] never touches the capacity. *)
Lemma hnswlib_add_items_frame data ids nt (ix : Hnswlib.Index) :
  let ix' := state_after (Hnswlib.add_items data ids nt) ix in
  Hnswlib.index_inited ix' = Hnswlib.index_inited ix /\
  Hnswlib.max_elements_ ix' = Hnswlib.max_elements_ ix.
Proof.
  unfold state_after.
  destruct (hnswlib_add_items_cases data ids nt ix) as [[e ->] | [rows ->]]; [simpl; auto |].
  pose proof (for_each_add_point_frame
                (zip (Hnswlib.batch_labels ix rows ids) (Hnswlib.array_rows data))
                (Hnswlib.set_cur_l (Hnswlib.cur_l ix + rows) ix)) as (H1 & H2 & _).
  unfold state_after in *. simpl in *. auto.
Qed.


Lemma max_elements_uninit (self : LazyHnsw.t) :
  Hnswlib.index_inited (LazyHnsw.base self) = false -> LazyHnsw.max_elements self = 0.
Proof. unfold LazyHnsw.max_elements, Hnswlib.max_elements. by intros ->. Qed.

Lemma element_count_uninit (self : LazyHnsw.t) :
  Hnswlib.index_inited (LazyHnsw.base self) = false -> LazyHnsw.element_count self = 0.
Proof. unfold LazyHnsw.element_count, Hnswlib.element_count. by intros ->. Qed.

Lemma max_elements_inited (self : LazyHnsw.t) :
  LazyHnsw.max_elements self <> 0 ->
  Hnswlib.index_inited (LazyHnsw.base self) = true /\
  Hnswlib.max_elements_ (LazyHnsw.base self) = LazyHnsw.max_elements self.
Proof.
  unfold LazyHnsw.max_elements, Hnswlib.max_elements.
  destruct (Hnswlib.index_inited (LazyHnsw.base self)); [auto | congruence].
Qed.

Lemma init_uninit (n : option nat) (self : LazyHnsw.t) :
  Hnswlib.index_inited (LazyHnsw.base self) = false ->
  LazyHnsw.init n self
  = (Ok tt, LazyHnsw.allocated
              (if decide (default_arg 0 n = 0) then LazyHnsw.init_max_elements self
               else default_arg 0 n) self).
Proof.
  intros Hun. unfold LazyHnsw.init, bind, get, LazyHnsw.super, lift, Hnswlib.init_index.
  by rewrite Hun.
Qed.

Lemma init_inited (n : option nat) (self : LazyHnsw.t) :
  Hnswlib.index_inited (LazyHnsw.base self) = true ->
  LazyHnsw.init n self = (Raise (RuntimeError "The index is already initiated."), self).
Proof.
  intros Hin. unfold LazyHnsw.init, bind, get, LazyHnsw.super, lift, Hnswlib.init_index.
  rewrite Hin. by destruct self.
Qed.

Lemma max_elements_allocated (c : nat) (self : LazyHnsw.t) :
  LazyHnsw.max_elements (LazyHnsw.allocated c self) = c.
Proof. reflexivity. Qed.

Lemma element_count_allocated (c : nat) (self : LazyHnsw.t) :
  LazyHnsw.element_count (LazyHnsw.allocated c self) = 0.
Proof. unfold LazyHnsw.element_count, Hnswlib.element_count. simpl. apply map_size_empty. Qed.

Lemma with_capacity_allocated (c c' : nat) (self : LazyHnsw.t) :
  LazyHnsw.with_capacity c (LazyHnsw.allocated c' self) = LazyHnsw.allocated c self.
Proof. reflexivity. Qed.

Lemma with_capacity_same (self : LazyHnsw.t) :
  LazyHnsw.with_capacity (Hnswlib.max_elements_ (LazyHnsw.base self)) self = self.
Proof. by destruct self as [[] ? ? ?]. Qed.

(** On allocated storage the engine accepts every size but 0 that holds
    the stored elements, a smaller one than the current capacity included. *)
Lemma super_resize_index (n : nat) (self : LazyHnsw.t) :
  Hnswlib.index_inited (LazyHnsw.base self) = true ->
  LazyHnsw.super (Hnswlib.resize_index n) self
  = if decide (n < LazyHnsw.element_count self) then
      (Raise (RuntimeError
         "Cannot resize, max element is less than the current number of elements"), self)
    else if decide (n = 0) then
      (Raise (RuntimeError
         "Not enough memory: resizeIndex failed to allocate base layer"), self)
    else (Ok tt, LazyHnsw.with_capacity n self).
Proof.
  intros Hin. unfold LazyHnsw.super, lift, Hnswlib.resize_index,
    LazyHnsw.element_count, Hnswlib.element_count.
  unfold LazyHnsw.with_capacity. rewrite Hin. simpl.
  destruct (decide _); [by destruct self |].
  destruct (decide _); [by destruct self | reflexivity].
Qed.

Lemma add_items_first data ids nt (self : LazyHnsw.t) :
  Hnswlib.index_inited (LazyHnsw.base self) = false ->
  LazyHnsw.add_items data ids nt self
  = LazyHnsw.super (Hnswlib.add_items data ids (default_arg (-1)%Z nt))
      (LazyHnsw.allocated (Nat.max (LazyHnsw.init_max_elements self) (length data)) self).
Proof.
  intros Hun. unfold LazyHnsw.add_items, bind, get.
  rewrite (max_elements_uninit _ Hun). simpl.
  rewrite (init_uninit None _ Hun). simpl.
  rewrite max_elements_allocated, element_count_allocated.
  destruct (decide _) as [Hlt | Hge].
  - rewrite super_resize_index by reflexivity.
    rewrite element_count_allocated. simpl.
    destruct (decide _) as [Hz | _]; [lia |].
    rewrite with_capacity_allocated. do 2 f_equal. lia.
  - unfold ret. do 2 f_equal. lia.
Qed.

Lemma add_items_later data ids nt (self : LazyHnsw.t) :
  LazyHnsw.max_elements self <> 0 ->
  LazyHnsw.add_items data ids nt self
  = LazyHnsw.super (Hnswlib.add_items data ids (default_arg (-1)%Z nt))
      (LazyHnsw.with_capacity
         (Nat.max (LazyHnsw.max_elements self)
                  (LazyHnsw.element_count self + length data)) self).
Proof.
  intros Hal. destruct (max_elements_inited _ Hal) as [Hin Hcap].
  unfold LazyHnsw.add_items, bind, get.
  destruct (decide (LazyHnsw.max_elements self = 0)) as [? | _]; [done |].
  unfold ret at 1.
  destruct (decide _) as [Hlt | Hge].
  - rewrite super_resize_index by done.
    destruct (decide _) as [Hbad | _]; [simpl in Hbad; lia |].
    destruct (decide _) as [Hz | _]; [simpl in Hz; lia |].
    do 2 f_equal. simpl. lia.
  - unfold ret. rewrite Nat.max_l by lia. rewrite <- Hcap.
    by rewrite with_capacity_same.
Qed.

Lemma add_items_zero_capacity data ids nt (self : LazyHnsw.t) :
  Hnswlib.index_inited (LazyHnsw.base self) = true ->
  LazyHnsw.max_elements self = 0 ->
  LazyHnsw.add_items data ids nt self
  = (Raise (RuntimeError "The index is already initiated."), self).
Proof.
  intros Hin Hz. unfold LazyHnsw.add_items, bind, get. rewrite Hz. simpl.
  by rewrite init_inited.
Qed.

Lemma max_elements_super {A} (m : Py Hnswlib.Index A) (self : LazyHnsw.t) :
  LazyHnsw.max_elements (state_after (LazyHnsw.super m) self)
  = Hnswlib.max_elements (state_after m (LazyHnsw.base self)).
Proof.
  unfold state_after, LazyHnsw.super, lift, LazyHnsw.max_elements.
  by destruct (m (LazyHnsw.base self)).
Qed.

Lemma max_elements_with_capacity (c : nat) (self : LazyHnsw.t) :
  Hnswlib.index_inited (LazyHnsw.base self) = true ->
  LazyHnsw.max_elements (LazyHnsw.with_capacity c self) = c.
Proof. intros Hin. unfold LazyHnsw.max_elements, Hnswlib.max_elements. simpl. by rewrite Hin. Qed.


Lemma get_items_state ids (self : LazyHnsw.t) :
  state_after (LazyHnsw.get_items ids) self = self.
Proof.
  unfold state_after, LazyHnsw.get_items, bind, get, LazyHnsw.super, lift.
  destruct (decide _); [reflexivity |].
  unfold Hnswlib.get_items. destruct ids as [l |]; [| by destruct self].
  destruct (forallb Hnswlib.is_uint64 l); by destruct self.
Qed.

Lemma search_state data k (self : LazyHnsw.t) :
  state_after (LazyHnsw.search data k) self = self.
Proof.
  unfold state_after, LazyHnsw.search, LazyHnsw.knn_query, bind, get, LazyHnsw.super, lift.
  destruct (decide _); [reflexivity |].
  unfold Hnswlib.knn_query. simpl.
  destruct (hnsw_knn _ _ _ _) as [[? ?] | ?]; by destruct self.
Qed.

Lemma set_ef_capacity ef (self : LazyHnsw.t) :
  LazyHnsw.max_elements (state_after (LazyHnsw.set_ef ef) self) = LazyHnsw.max_elements self.
Proof.
  unfold state_after, LazyHnsw.set_ef, bind, get, LazyHnsw.super, lift.
  destruct (decide _); reflexivity.
Qed.




Lemma resize_index_allocated size (self : LazyHnsw.t) :
  LazyHnsw.max_elements self <> 0 ->
  LazyHnsw.resize_index size self
  = if decide (size < LazyHnsw.element_count self) then
      (Raise (RuntimeError
         "Cannot resize, max element is less than the current number of elements"), self)
    else if decide (size = 0) then
      (Raise (RuntimeError
         "Not enough memory: resizeIndex failed to allocate base layer"), self)
    else (Ok tt, LazyHnsw.with_capacity size self).
Proof.
  intros Hal. destruct (max_elements_inited _ Hal) as [Hin _].
  unfold LazyHnsw.resize_index, bind, get.
  destruct (decide (LazyHnsw.max_elements self = 0)); [done |].
  by apply super_resize_index.
Qed.
End LazyHnswFacts.







(** ** Round trip and dimension check *)


Section LazyHnswRoundTrip.
Context `{Engines}.




















End LazyHnswRoundTrip.

(** * Construction and the metric *)


(** C4, as the claim states it, fails: the scikit-learn adapter is
    constructed for a metric that no engine knows, without an error and
    without a warning. *)
Lemma scikit_unknown_metric_counterexample :
  SciKitNearestNeighbors.__init__ (H:=example_engines) "no-such-metric" 4 None []
  = (Ok (SciKitNearestNeighbors.mk "no-such-metric" 4 [] [] false
           (NearestNeighbors.mk "no-such-metric" (-1)%Z 10 None)),
     []).
Proof. reflexivity. Qed.



(** * The scikit-learn adapter *)

Lemma list_index_lookup (l : list Z) (j : nat) (x : Z) :
  NoDup l -> l !! j = Some x -> list_index x l = Some j.
Proof.
  intros Hnd. revert j. induction Hnd as [| y l Hy _ IH]; intros j Hj; [done |].
  simpl. destruct j as [| j]; simpl in Hj.
  - injection Hj as ->. by rewrite decide_True.
  - rewrite decide_False.
    + by rewrite (IH j Hj).
    + intros ->. apply Hy. by eapply list_elem_of_lookup_2.
Qed.

Lemma list_index_None (l : list Z) (x : Z) : x ∉ l -> list_index x l = None.
Proof.
  induction l as [| y l IH]; [done |]. rewrite not_elem_of_cons. intros [Hne Hnin].
  simpl. rewrite decide_False by done. by rewrite IH.
Qed.

Section SciKitFacts.
Context `{Engines}.


Lemma scikit_itemgetter (i : Z) (j : nat) (v : list float) (self : SciKitNearestNeighbors.t) :
  list_index i (SciKitNearestNeighbors.ids self) = Some j ->
  SciKitNearestNeighbors.items self !! j = Some v ->
  SciKitNearestNeighbors.__itemgetter__ i self = (Ok v, self).
Proof.
  intros Hi Hv. unfold SciKitNearestNeighbors.__itemgetter__, bind, get.
  by rewrite Hi, Hv.
Qed.

(** The comprehension answers in the order of the request. *)
Lemma scikit_get_items_loop (req : list Z) (vs : list (list float))
    (self : SciKitNearestNeighbors.t) :
  Forall2 (fun i v => exists j, list_index i (SciKitNearestNeighbors.ids self) = Some j /\
                                SciKitNearestNeighbors.items self !! j = Some v) req vs ->
  SciKitNearestNeighbors.get_items_loop req self = (Ok vs, self).
Proof.
  induction 1 as [| i v req vs (j & Hi & Hv) _ IH]; [reflexivity |].
  simpl. unfold bind at 1. rewrite (scikit_itemgetter i j v self Hi Hv).
  unfold bind at 1. by rewrite IH.
Qed.

Lemma scikit_get_items_missing (i : Z) (req : list Z) (self : SciKitNearestNeighbors.t) :
  i ∉ SciKitNearestNeighbors.ids self ->
  SciKitNearestNeighbors.get_items (Some (i :: req)) self
  = (Raise (ValueError (pretty i +:+ " is not in list")), self).
Proof.
  intros Hi. simpl. unfold bind at 1, SciKitNearestNeighbors.__itemgetter__, bind, get.
  by rewrite (list_index_None _ _ Hi).
Qed.

End SciKitFacts.

(** * The redis adapter *)

Lemma run_other_key (srv : Redis.Server) (c : Redis.Command) (key : string) :
  Redis.command_key c <> key -> Redis.hashes (Redis.run srv c) !! key = Redis.hashes srv !! key.
Proof. destruct c as [k mapping]. simpl. intros Hne. by rewrite lookup_insert_ne. Qed.

Lemma execute_other_key (cmds : list Redis.Command) (srv : Redis.Server) (key : string) :
  key ∉ Redis.command_key <$> cmds ->
  Redis.hashes (foldl Redis.run srv cmds) !! key = Redis.hashes srv !! key.
Proof.
  revert srv. induction cmds as [| c cmds IH]; intros srv Hkey; [done |].
  simpl in *. apply not_elem_of_cons in Hkey as [Hne Hkey].
  rewrite IH by done. by apply run_other_key.
Qed.

Lemma execute_ft_index (cmds : list Redis.Command) (srv : Redis.Server) :
  Redis.ft_index (foldl Redis.run srv cmds) = Redis.ft_index srv.
Proof.
  revert srv. induction cmds as [| [k mapping] cmds IH]; intros srv; [done |].
  simpl. by rewrite IH.
Qed.

(** After a batch with distinct keys each key holds the embedding written
    for it. *)
Lemma execute_embedding (cmds : list Redis.Command) (srv : Redis.Server)
    (key emb item_id partition : string) :
  NoDup (Redis.command_key <$> cmds) ->
  Redis.HSET key [("embedding", emb); ("item_id", item_id); ("partition", partition)]
    ∈ cmds ->
  Redis.hget key "embedding" (foldl Redis.run srv cmds) = Some emb.
Proof.
  revert srv. induction cmds as [| c cmds IH]; intros srv Hnd Hin.
  - by apply elem_of_nil in Hin.
  - simpl in Hnd. apply NoDup_cons in Hnd as [Hc Hnd].
    apply elem_of_cons in Hin as [<- | Hin].
    + unfold Redis.hget. simpl. simpl in Hc. rewrite execute_other_key by done.
      simpl. rewrite lookup_insert_eq. simpl.
      rewrite !lookup_insert_ne by done. apply lookup_insert_eq.
    + by apply IH.
Qed.

Section RedisFacts.
Context `{Engines}.

Lemma redis_loop (partition : string) (ps : list (list float * Z)) (p : Redis.Pipeline)
    (self : RedisIndex.t) :
  RedisIndex.pipe self = Some p ->
  for_each (RedisIndex.add_item partition) ps self
  = (Ok tt,
     RedisIndex.set_pipe
       (Some (Redis.mkPipeline (Redis.transaction p)
                (Redis.command_stack p ++
                 ((fun q : list float * Z =>
                     Redis.HSET ("item:" +:+ pretty q.2)
                       [("embedding", tobytes q.1); ("item_id", pretty q.2);
                        ("partition", partition)]) <$> ps))))
       self).
Proof.
  revert p self. induction ps as [| [datum id] ps IH]; intros p self Hp.
  - simpl. rewrite app_nil_r. unfold ret. destruct self, p. simpl in *. by rewrite Hp.
  - simpl. unfold bind at 1, RedisIndex.add_item, RedisIndex.pipe_hset, bind, get, put.
    rewrite Hp. erewrite IH by reflexivity. simpl. by rewrite <- app_assoc.
Qed.

(** With ids, [add_items] sends the whole batch in one [execute] of a
    pipeline of its own, whatever [self.pipe] held before. *)
Lemma redis_add_items data ids partition (self : RedisIndex.t) :
  RedisIndex.add_items data (Some ids) partition self
  = (Ok tt,
     RedisIndex.set_pipe None
       (RedisIndex.set_redis
          (Redis.execute
             (Redis.mkPipeline false
                (RedisIndex.batch_commands (default_arg "" partition) data ids))
             (RedisIndex.redis self))
          self)).
Proof.
  unfold RedisIndex.add_items, bind at 1, modify.
  unfold bind at 1.
  erewrite redis_loop by reflexivity.
  reflexivity.
Qed.

Lemma redis_add_items_no_ids data partition (self : RedisIndex.t) :
  RedisIndex.add_items data None partition self
  = (Raise (TypeError "'NoneType' object is not iterable"),
     RedisIndex.set_pipe (Some (Redis.pipeline (Some false))) self).
Proof. reflexivity. Qed.

Lemma redis_exit_without_pipe (self : RedisIndex.t) :
  RedisIndex.pipe self = None ->
  RedisIndex.__exit__ self
  = (Raise (AttributeError "'NoneType' object has no attribute 'execute'"), self).
Proof.
  intros Hp. unfold RedisIndex.__exit__, RedisIndex.pipe_execute, bind, get, raise.
  by rewrite Hp.
Qed.

Lemma batch_commands_keys partition data (ids : list Z) :
  length ids <= length data ->
  Redis.command_key <$> RedisIndex.batch_commands partition data ids
  = (fun id => "item:" +:+ pretty id) <$> ids.
Proof.
  intros Hlen. unfold RedisIndex.batch_commands.
  rewrite <- list_fmap_compose.
  rewrite <- (snd_zip data ids) at 2 by done.
  rewrite <- list_fmap_compose. reflexivity.
Qed.


End RedisFacts.

Lemma item_key_inj (id id' : Z) :
  "item:" +:+ pretty id = "item:" +:+ pretty id' -> id = id'.
Proof. intros Heq. apply (inj (String.app "item:")) in Heq. by apply (inj pretty). Qed.

(** The last write to a key decides what is read from it. *)
Lemma execute_last_write (pre post : list Redis.Command) (srv : Redis.Server)
    (key emb item_id partition : string) :
  key ∉ Redis.command_key <$> post ->
  Redis.hget key "embedding"
    (foldl Redis.run srv
       (pre ++ Redis.HSET key [("embedding", emb); ("item_id", item_id);
                               ("partition", partition)] :: post))
  = Some emb.
Proof.
  intros Hpost. rewrite foldl_app. simpl. unfold Redis.hget.
  rewrite execute_other_key by done. simpl. rewrite lookup_insert_eq. simpl.
  rewrite !lookup_insert_ne by done. apply lookup_insert_eq.
Qed.

Section RedisWritten.
Context `{Engines}.

(** After [add_items] the record of an id holds the float32 bytes of the
    vector paired with its last occurrence in the batch. *)
Lemma redis_hget_last_write data ids partition (self : RedisIndex.t) (j : nat) (id : Z)
    (v : list float) :
  data !! j = Some v -> ids !! j = Some id -> id ∉ drop (S j) ids ->
  Redis.hget ("item:" +:+ pretty id) "embedding"
    (RedisIndex.redis (state_after (RedisIndex.add_items data (Some ids) partition) self))
  = Some (tobytes v).
Proof.
  intros Hv Hid Hlast. unfold state_after. rewrite redis_add_items. simpl.
  unfold Redis.execute, RedisIndex.batch_commands. simpl.
  assert (Hz : zip data ids !! j = Some (v, id)).
  { apply lookup_zip_with_Some. by exists v, id. }
  rewrite <- (take_drop_middle _ _ _ Hz). rewrite fmap_app, fmap_cons. simpl.
  apply execute_last_write.
  rewrite <- list_fmap_compose. intros Hin.
  apply list_elem_of_fmap in Hin as ([v' id'] & Heq & Hin). simpl in Heq.
  apply item_key_inj in Heq. subst id'.
  rewrite (zip_with_drop pair (S j) data ids) in Hin.
  apply elem_of_zip_r in Hin. contradiction.
Qed.

Lemma redis_get_item_last_write data ids partition (self : RedisIndex.t) (j : nat) (id : Z)
    (v : list float) :
  data !! j = Some v -> ids !! j = Some id -> id ∉ drop (S j) ids ->
  let self' := state_after (RedisIndex.add_items data (Some ids) partition) self in
  RedisIndex.get_items (Some [id]) self' = (Ok [Some (tobytes v)], self').
Proof.
  intros Hv Hid Hlast self'. unfold RedisIndex.get_items, bind, get, ret. simpl.
  unfold self'. by rewrite (redis_hget_last_write data ids partition self j id v).
Qed.
End RedisWritten.

(** C5, as the claim states it, fails: inside an open write scope the
    batch of [add_items] is on the server as soon as [add_items] returns,
    before the scope is left, and the pipeline that carried it was created
    with [transaction=False]. *)
Lemma redis_commit_before_scope_exit_counterexample :
  RedisIndex.__init__ "L2" 4 None (Some [("host", "localhost")]) None None None
    (Redis.mkServer ∅ None) = Ok example_redis /\
  Redis.hget "item:7" "embedding" (RedisIndex.redis example_redis) = None /\
  RedisIndex.pipe (state_after RedisIndex.__enter__ example_redis)
    = Some (Redis.mkPipeline true []) /\
  Redis.hget "item:7" "embedding"
    (RedisIndex.redis
       (state_after (RedisIndex.add_items (H:=example_engines) [[1; 2; 3; 4]]%Z
                       (Some [7]%Z) None)
          (state_after RedisIndex.__enter__ example_redis)))
    = Some "1;2;3;4;" /\
  RedisIndex.pipe
    (state_after (RedisIndex.add_items (H:=example_engines) [[1; 2; 3; 4]]%Z None None)
       (state_after RedisIndex.__enter__ example_redis))
    = Some (Redis.mkPipeline false []).
Proof.
  split; [vm_compute; reflexivity |].
  split; [vm_compute; reflexivity |].
  split; [reflexivity |].
  split; [vm_compute; reflexivity | reflexivity].
Qed.

(** C5, amended: [add_items] makes a pipeline of its own with
    [transaction=False], queues one write for each pair of the batch and
    sends them together with the [execute] at its end, whether or not a
    scope is open; when it raises before that [execute] (no ids) the
    server is left as it was. *)
Theorem redis_add_items_batch `{Engines} (self : RedisIndex.t) (data : list (list float))
    (partition : option string) :
  (forall ids,
     RedisIndex.add_items data (Some ids) partition self
     = (Ok tt,
        RedisIndex.set_pipe None
          (RedisIndex.set_redis
             (Redis.execute
                (Redis.mkPipeline false
                   (RedisIndex.batch_commands (default_arg "" partition) data ids))
                (RedisIndex.redis self))
             self))) /\
  (forall ids,
     RedisIndex.redis
       (state_after (RedisIndex.add_items data (Some ids) partition)
          (state_after RedisIndex.__enter__ self))
     = RedisIndex.redis (state_after (RedisIndex.add_items data (Some ids) partition) self)) /\
  raises (RedisIndex.add_items data None partition) self /\
  RedisIndex.redis (state_after (RedisIndex.add_items data None partition) self)
    = RedisIndex.redis self.
Proof.
  split; [| split; [| split]].
  - intros ids. apply redis_add_items.
  - intros ids. unfold state_after. by rewrite !redis_add_items.
  - unfold raises. rewrite redis_add_items_no_ids. simpl. eauto.
  - unfold state_after. by rewrite redis_add_items_no_ids.
Qed.

(** C10: [add_items] replaces the pipeline handle by a fresh pipeline and
    leaves it [None] after its own [execute]; called inside an open write
    scope it has the batch on the server on return, where the record of
    each id reads back the bytes of the vector paired with the id's last
    occurrence before the scope is left, and the [__exit__] that follows
    raises [AttributeError] on the [None] handle. *)
Theorem redis_add_items_inside_scope `{Engines} (self : RedisIndex.t)
    (data : list (list float)) (ids : list Z) (partition : option string) :
  RedisIndex.__enter__ self = (Ok tt, state_after RedisIndex.__enter__ self) /\
  RedisIndex.pipe (state_after RedisIndex.__enter__ self) = Some (Redis.pipeline None) /\
  RedisIndex.add_items data (Some ids) partition (state_after RedisIndex.__enter__ self)
    = (Ok tt,
       state_after (RedisIndex.add_items data (Some ids) partition)
         (state_after RedisIndex.__enter__ self)) /\
  RedisIndex.redis
    (state_after (RedisIndex.add_items data (Some ids) partition)
       (state_after RedisIndex.__enter__ self))
    = Redis.execute
        (Redis.mkPipeline false
           (RedisIndex.batch_commands (default_arg "" partition) data ids))
        (RedisIndex.redis self) /\
  RedisIndex.pipe
    (state_after (RedisIndex.add_items data (Some ids) partition)
       (state_after RedisIndex.__enter__ self)) = None /\
  RedisIndex.__exit__
    (state_after (RedisIndex.add_items data (Some ids) partition)
       (state_after RedisIndex.__enter__ self))
    = (Raise (AttributeError "'NoneType' object has no attribute 'execute'"),
       state_after (RedisIndex.add_items data (Some ids) partition)
         (state_after RedisIndex.__enter__ self)) /\
  (forall j v id,
     data !! j = Some v -> ids !! j = Some id -> id ∉ drop (S j) ids ->
     Redis.hget ("item:" +:+ pretty id) "embedding"
       (RedisIndex.redis
          (state_after (RedisIndex.add_items data (Some ids) partition)
             (state_after RedisIndex.__enter__ self)))
       = Some (tobytes v) /\
     RedisIndex.get_items (Some [id])
       (state_after (RedisIndex.add_items data (Some ids) partition)
          (state_after RedisIndex.__enter__ self))
       = (Ok [Some (tobytes v)],
          state_after (RedisIndex.add_items data (Some ids) partition)
            (state_after RedisIndex.__enter__ self))).
Proof.
  split; [reflexivity |]. split; [reflexivity |].
  set (inside := state_after RedisIndex.__enter__ self).
  assert (Hread : forall j v id,
     data !! j = Some v -> ids !! j = Some id -> id ∉ drop (S j) ids ->
     Redis.hget ("item:" +:+ pretty id) "embedding"
       (RedisIndex.redis
          (state_after (RedisIndex.add_items data (Some ids) partition) inside))
       = Some (tobytes v) /\
     RedisIndex.get_items (Some [id])
       (state_after (RedisIndex.add_items data (Some ids) partition) inside)
       = (Ok [Some (tobytes v)],
          state_after (RedisIndex.add_items data (Some ids) partition) inside)).
  { intros j v id Hv Hid Hlast. split.
    - by apply (redis_hget_last_write data ids partition inside j id v).
    - by apply (redis_get_item_last_write data ids partition inside j id v). }
  pose proof (redis_add_items data ids partition inside) as Hadd.
  revert Hread. unfold state_after. rewrite Hadd. simpl. intros Hread.
  split; [reflexivity |]. split; [reflexivity |]. split; [reflexivity |].
  split; [by apply redis_exit_without_pipe | exact Hread].
Qed.

Lemma redis_add_items_inside_scope_witness :
  Redis.hget "item:2" "embedding"
    (RedisIndex.redis
       (state_after (RedisIndex.add_items example_data (Some [1; 2; 3]%Z) None)
          (state_after RedisIndex.__enter__ example_redis)))
  = Some "1;1;1;1;".
Proof.
  destruct (@redis_add_items_inside_scope example_engines example_redis example_data
              [1; 2; 3]%Z None) as (_ & _ & _ & _ & _ & _ & Hread).
  assert (Hlast : 2%Z ∉ drop 2 [1; 2; 3]%Z).
  { simpl. rewrite not_elem_of_cons. split; [discriminate | apply not_elem_of_nil]. }
  exact (proj1 (Hread 1 [1; 1; 1; 1]%Z 2%Z eq_refl eq_refl Hlast)).
Defined.

(** * The contract across the adapters *)

(** C2, as the claim states it, fails: on a freshly constructed
    scikit-learn adapter [get_items([1])] raises [ValueError], and on a
    freshly constructed redis adapter [get_current_count()] raises
    [NotImplementedError]. *)
Lemma uninitialized_reads_counterexample :
  SciKitNearestNeighbors.__init__ "l2" 4 None [] = (Ok example_scikit, []) /\
  SciKitNearestNeighbors.get_items (Some [1]%Z) example_scikit
    = (Raise (ValueError "1 is not in list"), example_scikit) /\
  RedisIndex.__init__ "L2" 4 None (Some [("host", "localhost")]) None None None
    (Redis.mkServer ∅ None) = Ok example_redis /\
  RedisIndex.get_current_count example_redis
    = (Raise (NotImplementedError "RedisIndex is not implemented yet"), example_redis).
Proof.
  split; [reflexivity |]. split; [reflexivity |].
  split; [vm_compute; reflexivity | reflexivity].
Qed.

(** C2, amended: on a never-allocated hnswlib adapter the three reads
    return 0, an empty search result and an empty list, and leave the
    index as it is. On an empty scikit-learn adapter [get_current_count]
    returns 0 and [get_items([])] returns [[]], while [get_items] of a
    non-empty list raises [ValueError] and [search] hands the empty item
    list to the estimator's [fit] and raises what that raises. On the
    redis adapter
    [get_current_count] raises [NotImplementedError], and [get_items] on
    an empty server returns one null slot for each requested id. *)
Theorem uninitialized_index_reads `{Engines} :
  (forall (self : LazyHnsw.t) data k ids,
     Hnswlib.index_inited (LazyHnsw.base self) = false ->
     LazyHnsw.get_current_count self = (Ok 0, self) /\
     LazyHnsw.search data k self = (Ok ([], []), self) /\
     LazyHnsw.get_items ids self = (Ok [], self)) /\
  (forall (self : SciKitNearestNeighbors.t),
     SciKitNearestNeighbors.items self = [] ->
     SciKitNearestNeighbors.ids self = [] ->
     SciKitNearestNeighbors.get_current_count self = (Ok 0, self) /\
     SciKitNearestNeighbors.get_items (Some []) self = (Ok [], self) /\
     (forall i req,
        SciKitNearestNeighbors.get_items (Some (i :: req)) self
        = (Raise (ValueError (pretty i +:+ " is not in list")), self)) /\
     (forall data k e,
        SciKitNearestNeighbors.fitted self = false ->
        sklearn_fit (NearestNeighbors.metric (SciKitNearestNeighbors.index self)) [] = Raise e ->
        SciKitNearestNeighbors.search data k self = (Raise e, self))) /\
  (forall (self : RedisIndex.t),
     RedisIndex.get_current_count self
     = (Raise (NotImplementedError "RedisIndex is not implemented yet"), self)) /\
  (forall (self : RedisIndex.t) ids,
     Redis.hashes (RedisIndex.redis self) = ∅ ->
     RedisIndex.get_items (Some ids) self = (Ok (replicate (length ids) None), self)).
Proof.
  split; [| split; [| split]].
  - intros self data k ids Hun.
    pose proof (max_elements_uninit self Hun) as Hcap.
    pose proof (element_count_uninit self Hun) as Hcount.
    split; [| split].
    + unfold LazyHnsw.get_current_count, bind, get, ret. by rewrite Hcount.
    + unfold LazyHnsw.search, LazyHnsw.knn_query, bind, get, ret. by rewrite Hcap.
    + unfold LazyHnsw.get_items, bind, get, ret. by rewrite Hcap.
  - intros self Hitems Hids. split; [| split; [| split]].
    + unfold SciKitNearestNeighbors.get_current_count, bind, get, ret. by rewrite Hitems.
    + reflexivity.
    + intros i req. apply scikit_get_items_missing. rewrite Hids. apply not_elem_of_nil.
    + intros data k e Hfit Hraise.
      unfold SciKitNearestNeighbors.search, bind, get, lift, NearestNeighbors.fit.
      rewrite Hfit, Hitems. simpl. rewrite Hraise. by destruct self.
  - reflexivity.
  - intros self ids Hempty. unfold RedisIndex.get_items, bind, get, ret. do 2 f_equal.
    induction ids as [| id ids IH]; [reflexivity |].
    simpl. rewrite IH. unfold Redis.hget. by rewrite Hempty, lookup_empty.
Qed.

Lemma uninitialized_index_reads_witness :
  LazyHnsw.get_current_count (example_lazy_hnsw None) = (Ok 0, example_lazy_hnsw None) /\
  LazyHnsw.search example_data (Some 2) (example_lazy_hnsw None)
    = (Ok ([], []), example_lazy_hnsw None) /\
  LazyHnsw.get_items (Some [1; 2]%Z) (example_lazy_hnsw None)
    = (Ok [], example_lazy_hnsw None).
Proof.
  apply (proj1 (@uninitialized_index_reads example_engines)). reflexivity.
Defined.







(** * Further properties of the selector *)

(** X1: [parse_server_name] returns the adapter of an optional engine only
    for an alias of that engine and only when the engine is available. *)
Theorem parse_server_name_sound (available_engines : gset string) (sname : string) :
  (parse_server_name available_engines sname = LazyHnsw <->
     sname ∈ ["hnswlib"; "hnsw"] /\ "hnswlib" ∈ available_engines) /\
  (parse_server_name available_engines sname = FaissIndexFactory <->
     sname ∈ ["faiss"; "flatfaiss"] /\ "faiss" ∈ available_engines) /\
  (parse_server_name available_engines sname = RedisIndex <->
     sname ∈ ["redis"] /\ "redis" ∈ available_engines).
Proof.
  unfold parse_server_name.
  destruct (decide (sname ∈ ["hnswlib"; "hnsw"])) as [Hh | Hh];
    [destruct (decide ("hnswlib" ∈ available_engines)) |
     destruct (decide (sname ∈ ["faiss"; "flatfaiss"])) as [Hf | Hf];
       [destruct (decide ("faiss" ∈ available_engines)) |
        destruct (decide (sname ∈ ["redis"])) as [Hr | Hr];
          [destruct (decide ("redis" ∈ available_engines)) |]]];
    (split; [| split]); (split; [intros Heq; try discriminate Heq | intros [Hs Ha]]);
    try reflexivity; try contradiction; try (split; assumption);
    exfalso; elems.
Qed.

(** * Further properties of the capacity-bounded adapter *)

Section LazyHnswMore.
Context `{Engines}.

Lemma add_point_within (p : Z * list float) (ix : Hnswlib.Index) :
  size (Hnswlib.label_lookup ix) <= Hnswlib.max_elements_ ix ->
  size (Hnswlib.label_lookup (state_after (Hnswlib.add_point p) ix))
  <= Hnswlib.max_elements_ ix.
Proof.
  destruct p as [label v]. unfold state_after, Hnswlib.add_point. intros Hle.
  destruct (Hnswlib.label_lookup ix !! label) as [old |] eqn:Hl.
  - simpl. rewrite map_size_insert_Some by (rewrite Hl; eauto). done.
  - destruct (decide _); simpl; [done |]. rewrite map_size_insert_None by done. lia.
Qed.

Lemma for_each_add_point_within (ps : list (Z * list float)) (ix : Hnswlib.Index) :
  size (Hnswlib.label_lookup ix) <= Hnswlib.max_elements_ ix ->
  size (Hnswlib.label_lookup (state_after (for_each Hnswlib.add_point ps) ix))
  <= Hnswlib.max_elements_ ix.
Proof.
  revert ix. induction ps as [| p ps IH]; intros ix Hle; [done |].
  pose proof (add_point_within p ix Hle) as Hp.
  pose proof (add_point_frame p ix) as (_ & Hcap & _).
  unfold state_after in *. simpl. unfold bind.
  destruct (Hnswlib.add_point p ix) as [[[] | e] ix1]; simpl in *; [| done].
  rewrite <- Hcap. apply IH. by rewrite Hcap.
Qed.

(** The engine never stores more elements than its capacity. *)
Lemma hnswlib_add_items_within data ids nt (ix : Hnswlib.Index) :
  Hnswlib.element_count ix <= Hnswlib.max_elements ix ->
  Hnswlib.element_count (state_after (Hnswlib.add_items data ids nt) ix)
  <= Hnswlib.max_elements (state_after (Hnswlib.add_items data ids nt) ix).
Proof.
  intros Hle. destruct (hnswlib_add_items_frame data ids nt ix) as [Hin Hcap].
  unfold Hnswlib.element_count, Hnswlib.max_elements in *. rewrite Hin, Hcap.
  destruct (Hnswlib.index_inited ix) eqn:Hi; [| done].
  unfold state_after.
  destruct (hnswlib_add_items_cases data ids nt ix) as [[e ->] | [rows ->]]; [done |].
  apply (for_each_add_point_within _
           (Hnswlib.set_cur_l (Hnswlib.cur_l ix + rows) ix)). exact Hle.
Qed.

Lemma element_count_super {A} (m : Py Hnswlib.Index A) (self : LazyHnsw.t) :
  LazyHnsw.element_count (state_after (LazyHnsw.super m) self)
  = Hnswlib.element_count (state_after m (LazyHnsw.base self)).
Proof.
  unfold state_after, LazyHnsw.super, lift, LazyHnsw.element_count.
  by destruct (m (LazyHnsw.base self)).
Qed.

Lemma super_add_items_within data ids nt (self : LazyHnsw.t) :
  LazyHnsw.element_count self <= LazyHnsw.max_elements self ->
  LazyHnsw.element_count (state_after (LazyHnsw.super (Hnswlib.add_items data ids nt)) self)
  <= LazyHnsw.max_elements (state_after (LazyHnsw.super (Hnswlib.add_items data ids nt)) self).
Proof.
  intros Hle. rewrite element_count_super, max_elements_super.
  by apply hnswlib_add_items_within.
Qed.

Lemma element_count_with_capacity (c : nat) (self : LazyHnsw.t) :
  LazyHnsw.element_count (LazyHnsw.with_capacity c self) = LazyHnsw.element_count self.
Proof. reflexivity. Qed.

Lemma add_items_within data ids nt (self : LazyHnsw.t) :
  LazyHnsw.element_count self <= LazyHnsw.max_elements self ->
  LazyHnsw.element_count (state_after (LazyHnsw.add_items data ids nt) self)
  <= LazyHnsw.max_elements (state_after (LazyHnsw.add_items data ids nt) self).
Proof.
  intros Hle. destruct (Hnswlib.index_inited (LazyHnsw.base self)) eqn:Hin.
  - destruct (decide (LazyHnsw.max_elements self = 0)) as [Hz | Hnz].
    + unfold state_after. by rewrite add_items_zero_capacity.
    + unfold state_after. rewrite add_items_later by done.
      apply super_add_items_within.
      rewrite element_count_with_capacity, max_elements_with_capacity by done. lia.
  - unfold state_after. rewrite add_items_first by done.
    apply super_add_items_within.
    rewrite element_count_allocated. lia.
Qed.

Lemma init_within n (self : LazyHnsw.t) :
  LazyHnsw.element_count self <= LazyHnsw.max_elements self ->
  LazyHnsw.element_count (state_after (LazyHnsw.init n) self)
  <= LazyHnsw.max_elements (state_after (LazyHnsw.init n) self).
Proof.
  intros Hle. unfold state_after.
  destruct (Hnswlib.index_inited (LazyHnsw.base self)) eqn:Hin.
  - by rewrite init_inited.
  - rewrite init_uninit by done. simpl. rewrite element_count_allocated. lia.
Qed.

Lemma resize_index_within size (self : LazyHnsw.t) :
  LazyHnsw.element_count self <= LazyHnsw.max_elements self ->
  LazyHnsw.element_count (state_after (LazyHnsw.resize_index size) self)
  <= LazyHnsw.max_elements (state_after (LazyHnsw.resize_index size) self).
Proof.
  intros Hle. unfold state_after.
  destruct (decide (LazyHnsw.max_elements self = 0)) as [Hz | Hnz].
  - unfold LazyHnsw.resize_index, bind, get. rewrite Hz. simpl.
    by apply init_within.
  - rewrite resize_index_allocated by done.
    destruct (max_elements_inited _ Hnz) as [Hin _].
    destruct (decide _); simpl; [done |].
    destruct (decide _); simpl; [done |].
    rewrite element_count_with_capacity, max_elements_with_capacity by done. lia.
Qed.

Lemma set_ef_count ef (self : LazyHnsw.t) :
  LazyHnsw.element_count (state_after (LazyHnsw.set_ef ef) self)
  = LazyHnsw.element_count self.
Proof.
  unfold state_after, LazyHnsw.set_ef, bind, get, LazyHnsw.super, lift.
  destruct (decide _); reflexivity.
Qed.

Lemma step_within (o : LazyHnsw.op) (self : LazyHnsw.t) :
  LazyHnsw.element_count self <= LazyHnsw.max_elements self ->
  LazyHnsw.element_count (LazyHnsw.step o self)
  <= LazyHnsw.max_elements (LazyHnsw.step o self).
Proof.
  intros Hle. destruct o; simpl.
  - by apply init_within.
  - by apply add_items_within.
  - by apply add_items_within.
  - by rewrite get_items_state.
  - by rewrite search_state.
  - by apply resize_index_within.
  - by rewrite set_ef_count, set_ef_capacity.
  - done.
  - done.
Qed.

(** X2: along every run of the operations, [resize_index] included, from a
    constructed index, the count never exceeds the capacity at a moment the
    storage is allocated, and is 0 before. *)
Theorem lazy_hnsw_count_within_capacity space dim index_factory max_elements
    ef_construction M (self : LazyHnsw.t) (ops : list LazyHnsw.op) :
  LazyHnsw.__init__ space dim index_factory max_elements ef_construction M = Ok self ->
  LazyHnsw.element_count (LazyHnsw.run ops self)
  <= LazyHnsw.max_elements (LazyHnsw.run ops self).
Proof.
  intros Hnew.
  assert (Hstart : LazyHnsw.element_count self <= LazyHnsw.max_elements self).
  { unfold LazyHnsw.__init__, Hnswlib.__init__ in Hnew.
    destruct (decide _); [| discriminate]. injection Hnew as <-. reflexivity. }
  clear Hnew. revert self Hstart. unfold LazyHnsw.run.
  induction ops as [| o ops IH]; intros self Hstart; [done |].
  simpl. apply IH. by apply step_within.
Qed.

End LazyHnswMore.

Lemma lazy_hnsw_count_within_capacity_witness :
  LazyHnsw.element_count
    (LazyHnsw.run [LazyHnsw.OpAddItems example_data (Some [1; 2; 3]%Z);
                   LazyHnsw.OpResizeIndex 3; LazyHnsw.OpAdd example_data]
       (example_lazy_hnsw (Some 2)))
  <= LazyHnsw.max_elements
       (LazyHnsw.run [LazyHnsw.OpAddItems example_data (Some [1; 2; 3]%Z);
                      LazyHnsw.OpResizeIndex 3; LazyHnsw.OpAdd example_data]
          (example_lazy_hnsw (Some 2))).
Proof.
  apply (lazy_hnsw_count_within_capacity "l2" 4 None (Some 2) None None). reflexivity.
Defined.

Section LazyHnswGrowth.
Context `{Engines}.




End LazyHnswGrowth.


Section LazyHnswEdges.
Context `{Engines}.



(** X6: an index whose storage was allocated with capacity 0 is stuck.
    [add_items], [resize_index] and [init] all raise "The index is already
    initiated." and leave it as it is, and the reads keep answering as for
    an empty index. *)
Theorem lazy_hnsw_zero_capacity_stuck (self : LazyHnsw.t) :
  Hnswlib.index_inited (LazyHnsw.base self) = true ->
  LazyHnsw.max_elements self = 0 ->
  (forall data ids num_threads,
     LazyHnsw.add_items data ids num_threads self
     = (Raise (RuntimeError "The index is already initiated."), self)) /\
  (forall size,
     LazyHnsw.resize_index size self
     = (Raise (RuntimeError "The index is already initiated."), self)) /\
  (forall n,
     LazyHnsw.init n self
     = (Raise (RuntimeError "The index is already initiated."), self)) /\
  (forall ids, LazyHnsw.get_items ids self = (Ok [], self)) /\
  (forall data k, LazyHnsw.search data k self = (Ok ([], []), self)).
Proof.
  intros Hin Hz. split; [| split; [| split; [| split]]].
  - intros data ids num_threads. by apply add_items_zero_capacity.
  - intros size. unfold LazyHnsw.resize_index, bind, get. rewrite Hz. simpl.
    by apply init_inited.
  - intros n. by apply init_inited.
  - intros ids. unfold LazyHnsw.get_items, bind, get, ret. by rewrite Hz.
  - intros data k. unfold LazyHnsw.search, LazyHnsw.knn_query, bind, get, ret.
    by rewrite Hz.
Qed.

(** X7: the reads never change the index, whether they return or raise. *)
Theorem lazy_hnsw_reads_pure (self : LazyHnsw.t) :
  (forall ids, state_after (LazyHnsw.get_items ids) self = self) /\
  (forall data k num_threads,
     state_after (LazyHnsw.knn_query data k num_threads) self = self) /\
  (forall data k, state_after (LazyHnsw.search data k) self = self) /\
  LazyHnsw.get_current_count self = (Ok (LazyHnsw.element_count self), self) /\
  LazyHnsw.get_max_elements self = (Ok (LazyHnsw.max_elements self), self) /\
  LazyHnsw.__len__ self = LazyHnsw.get_current_count self.
Proof.
  split; [| split; [| split; [| repeat split]]].
  - intros ids. apply get_items_state.
  - intros data k num_threads.
    unfold state_after, LazyHnsw.knn_query, bind, get, LazyHnsw.super, lift.
    destruct (decide _); [reflexivity |].
    unfold Hnswlib.knn_query.
    destruct (hnsw_knn _ _ data _) as [[? ?] | ?]; by destruct self.
  - intros data k. apply search_state.
Qed.

End LazyHnswEdges.



Lemma lazy_hnsw_zero_capacity_stuck_witness :
  LazyHnsw.add_items example_data (Some [1; 2; 3]%Z) None
    (state_after (LazyHnsw.add_items [] None None) (example_lazy_hnsw (Some 0)))
  = (Raise (RuntimeError "The index is already initiated."),
     state_after (LazyHnsw.add_items [] None None) (example_lazy_hnsw (Some 0))).
Proof.
  destruct (@lazy_hnsw_zero_capacity_stuck example_engines
              (state_after (LazyHnsw.add_items [] None None) (example_lazy_hnsw (Some 0))))
    as (Hadd & _).
  - reflexivity.
  - reflexivity.
  - apply Hadd.
Defined.


(** * Further properties of the scikit-learn adapter *)

Lemma list_index_app_l (x : Z) (l l' : list Z) (j : nat) :
  list_index x l = Some j -> list_index x (l ++ l') = Some j.
Proof.
  revert j. induction l as [| y l IH]; intros j; [done |]. simpl.
  destruct (decide (y = x)); [done |].
  destruct (list_index x l) as [j' |]; [| done]. simpl. intros [= <-].
  by rewrite (IH j' eq_refl).
Qed.

Lemma list_index_lt (x : Z) (l : list Z) (j : nat) :
  list_index x l = Some j -> l !! j = Some x.
Proof.
  revert j. induction l as [| y l IH]; intros j; [done |]. simpl.
  destruct (decide (y = x)) as [-> | _]; [by intros [= <-] |].
  destruct (list_index x l) as [j' |]; [| done]. simpl. intros [= <-].
  by apply IH.
Qed.

Section SciKitMore.
Context `{Engines}.

Lemma scikit_itemgetter_inv (i : Z) (v : list float) (self self' : SciKitNearestNeighbors.t) :
  SciKitNearestNeighbors.__itemgetter__ i self = (Ok v, self') ->
  exists j, list_index i (SciKitNearestNeighbors.ids self) = Some j /\
            SciKitNearestNeighbors.items self !! j = Some v.
Proof.
  unfold SciKitNearestNeighbors.__itemgetter__, bind, get, raise, ret.
  destruct (list_index i _) as [j |]; [| discriminate].
  destruct (_ !! j) as [v' |] eqn:Hv; [| discriminate].
  intros [= <- _]. eauto.
Qed.

Lemma scikit_itemgetter_state (i : Z) (self : SciKitNearestNeighbors.t) :
  state_after (SciKitNearestNeighbors.__itemgetter__ i) self = self.
Proof.
  unfold state_after, SciKitNearestNeighbors.__itemgetter__, bind, get, raise, ret.
  destruct (list_index i _) as [j |]; [| done].
  by destruct (_ !! j).
Qed.

Lemma scikit_get_items_loop_inv (req : list Z) (vs : list (list float))
    (self self' : SciKitNearestNeighbors.t) :
  SciKitNearestNeighbors.get_items_loop req self = (Ok vs, self') ->
  Forall2 (fun i v => exists j, list_index i (SciKitNearestNeighbors.ids self) = Some j /\
                                SciKitNearestNeighbors.items self !! j = Some v) req vs.
Proof.
  revert vs self'. induction req as [| i req IH]; intros vs self'; simpl.
  - intros [= <- _]. constructor.
  - unfold bind at 1.
    pose proof (scikit_itemgetter_state i self) as Hst. unfold state_after in Hst.
    destruct (SciKitNearestNeighbors.__itemgetter__ i self) as [[v | e] s1] eqn:Hi;
      [| discriminate].
    simpl in Hst. subst s1. unfold bind at 1.
    destruct (SciKitNearestNeighbors.get_items_loop req self) as [[vs' | e] s2] eqn:Hreq;
      [| discriminate].
    intros [= <- _]. constructor.
    + by eapply scikit_itemgetter_inv.
    + by eapply IH.
Qed.

(** X9: [add_items] without ids raises [TypeError] only after it has
    appended the vectors: the count has grown, the ids have not, and the
    next batch is stored out of step, its ids answering with the vectors
    of the failed batch. *)
Theorem scikit_add_items_without_ids data1 data2 ids2 (nt : option Z)
    (self : SciKitNearestNeighbors.t) :
  let failed := state_after (SciKitNearestNeighbors.add_items data1 None nt) self in
  (SciKitNearestNeighbors.add_items data1 None nt self).1
    = Raise (TypeError "'NoneType' object is not iterable") /\
  SciKitNearestNeighbors.get_current_count failed
    = (Ok (length (SciKitNearestNeighbors.items self) + length data1), failed) /\
  SciKitNearestNeighbors.ids failed = SciKitNearestNeighbors.ids self /\
  SciKitNearestNeighbors.fitted failed = SciKitNearestNeighbors.fitted self /\
  (SciKitNearestNeighbors.items self = [] -> SciKitNearestNeighbors.ids self = [] ->
   NoDup ids2 -> length data2 = length ids2 ->
   let self' := state_after (SciKitNearestNeighbors.add_items data2 (Some ids2) nt) failed in
   SciKitNearestNeighbors.get_items (Some ids2) self'
   = (Ok (take (length ids2) (data1 ++ data2)), self')).
Proof.
  intros failed. split; [reflexivity |]. split; [| split; [reflexivity |]].
  - unfold SciKitNearestNeighbors.get_current_count, bind, get, ret, failed, state_after.
    simpl. by rewrite length_app.
  - split; [reflexivity |]. intros Hitems Hids Hnd Hlen self'.
    simpl. apply scikit_get_items_loop.
    unfold self', failed, state_after. simpl. rewrite Hitems, Hids. simpl.
    apply Forall2_same_length_lookup_2.
    + rewrite length_take, length_app. lia.
    + intros j i v Hi Hv. exists j. split; [by apply list_index_lookup |].
      apply lookup_take_Some in Hv. tauto.
Qed.

(** X10: what [get_items] returns for a list of ids is never changed by a
    later [add_items], not even by one that inserts one of the ids again:
    the first vector stored under an id is the one returned. *)
Theorem scikit_first_insert_wins req vs data ids (nt : option Z)
    (self : SciKitNearestNeighbors.t) :
  SciKitNearestNeighbors.get_items (Some req) self = (Ok vs, self) ->
  let self' := state_after (SciKitNearestNeighbors.add_items data (Some ids) nt) self in
  SciKitNearestNeighbors.get_items (Some req) self' = (Ok vs, self').
Proof.
  intros Hget self'. simpl in *. apply scikit_get_items_loop.
  apply scikit_get_items_loop_inv in Hget.
  eapply Forall2_impl; [exact Hget |]. intros i v (j & Hi & Hv). exists j.
  unfold self', state_after. simpl. split.
  - by apply list_index_app_l.
  - by apply lookup_app_l_Some.
Qed.

(** X11: [get_items] raises [ValueError] at the first requested id that
    was never inserted, and leaves the adapter as it is. *)
Theorem scikit_get_items_missing_id pre vs i post (self : SciKitNearestNeighbors.t) :
  SciKitNearestNeighbors.get_items (Some pre) self = (Ok vs, self) ->
  i ∉ SciKitNearestNeighbors.ids self ->
  SciKitNearestNeighbors.get_items (Some (pre ++ i :: post)) self
  = (Raise (ValueError (pretty i +:+ " is not in list")), self).
Proof.
  intros Hpre Hi. simpl in *. revert vs Hpre.
  induction pre as [| p pre IH]; intros vs Hpre.
  - by apply (scikit_get_items_missing i post self).
  - simpl in *. unfold bind at 1 in Hpre. unfold bind at 1.
    pose proof (scikit_itemgetter_state p self) as Hst. unfold state_after in Hst.
    destruct (SciKitNearestNeighbors.__itemgetter__ p self) as [[v | e] s1];
      [| discriminate].
    simpl in Hst. subst s1. unfold bind at 1 in Hpre. unfold bind at 1.
    destruct (SciKitNearestNeighbors.get_items_loop pre self) as [[vs' | e] s2] eqn:Hrest;
      [| discriminate].
    assert (s2 = self) as -> by (by injection Hpre).
    by rewrite (IH vs' eq_refl).
Qed.

(** X12: ids that reach beyond the vectors of their batch are stored
    without a vector: looking one up raises [IndexError]. *)
Theorem scikit_unpaired_id data ids (nt : option Z) (j : nat) (i : Z)
    (self : SciKitNearestNeighbors.t) :
  SciKitNearestNeighbors.items self = [] ->
  SciKitNearestNeighbors.ids self = [] ->
  NoDup ids -> ids !! j = Some i -> length data <= j ->
  let self' := state_after (SciKitNearestNeighbors.add_items data (Some ids) nt) self in
  SciKitNearestNeighbors.add_items data (Some ids) nt self = (Ok tt, self') /\
  SciKitNearestNeighbors.get_items (Some [i]) self'
  = (Raise (IndexError "list index out of range"), self').
Proof.
  intros Hitems Hids Hnd Hi Hj self'. split; [reflexivity |].
  simpl. unfold bind at 1, SciKitNearestNeighbors.__itemgetter__, bind, get, raise.
  unfold self', state_after. simpl. rewrite Hitems, Hids. simpl.
  rewrite (list_index_lookup ids j i Hnd Hi).
  by rewrite (lookup_ge_None_2 data j Hj).
Qed.

Lemma scikit_search_fitted data k (self : SciKitNearestNeighbors.t) :
  SciKitNearestNeighbors.fitted self = true ->
  SciKitNearestNeighbors.search data k self
  = (match NearestNeighbors.fit_result (SciKitNearestNeighbors.index self) with
     | None => Raise (ValueError "This NearestNeighbors instance is not fitted yet.")
     | Some m => sklearn_kneighbors m data (default_arg 1 k)
     end, self).
Proof.
  intros Hf. destruct self as [sp dm its is_ fitted [mt nj nn fr]]. simpl in Hf. subst fitted.
  unfold SciKitNearestNeighbors.search, bind, get, lift, NearestNeighbors.kneighbors, ret.
  simpl. destruct fr as [m |]; [| reflexivity].
  by destruct (sklearn_kneighbors m data (default_arg 1 k)) as [[? ?] | e].
Qed.

Lemma scikit_search_unfitted data k (self : SciKitNearestNeighbors.t) :
  SciKitNearestNeighbors.fitted self = false ->
  SciKitNearestNeighbors.search data k self
  = match sklearn_fit (NearestNeighbors.metric (SciKitNearestNeighbors.index self))
                      (SciKitNearestNeighbors.items self) with
    | Raise e => (Raise e, self)
    | Ok m =>
        (sklearn_kneighbors m data (default_arg 1 k),
         SciKitNearestNeighbors.set_fitted true
           (SciKitNearestNeighbors.set_index
              (NearestNeighbors.mk
                 (NearestNeighbors.metric (SciKitNearestNeighbors.index self))
                 (NearestNeighbors.n_jobs (SciKitNearestNeighbors.index self))
                 (NearestNeighbors.n_neighbors (SciKitNearestNeighbors.index self))
                 (Some m)) self))
    end.
Proof.
  intros Hf. destruct self as [sp dm its is_ fitted [mt nj nn fr]]. simpl in Hf. subst fitted.
  unfold SciKitNearestNeighbors.search, bind, get, lift, NearestNeighbors.fit,
    NearestNeighbors.kneighbors, modify, ret.
  simpl. destruct (sklearn_fit mt its) as [m | e]; [| reflexivity]. simpl.
  by destruct (sklearn_kneighbors m data (default_arg 1 k)) as [[? ?] | e].
Qed.

(** X13: a [search] repeated with no [add_items] in between gives the same
    answer and leaves the adapter as the first one left it. *)
Theorem scikit_search_idempotent data k (self : SciKitNearestNeighbors.t) :
  SciKitNearestNeighbors.search data k
    (state_after (SciKitNearestNeighbors.search data k) self)
  = ((SciKitNearestNeighbors.search data k self).1,
     state_after (SciKitNearestNeighbors.search data k) self).
Proof.
  unfold state_after.
  destruct (SciKitNearestNeighbors.fitted self) eqn:Hf.
  - rewrite (scikit_search_fitted data k self Hf). simpl.
    by rewrite (scikit_search_fitted data k self Hf).
  - rewrite (scikit_search_unfitted data k self Hf).
    destruct (sklearn_fit _ _) as [m | e] eqn:Hfit; simpl.
    + by rewrite scikit_search_fitted.
    + rewrite (scikit_search_unfitted data k self Hf). by rewrite Hfit.
Qed.

(** X14: after [add_items] a [search] is answered by an estimator fitted
    on all the items, those of the batch included, whatever was fitted
    before; and it raises what the estimator's [fit] raises. *)
Theorem scikit_search_refits data ids (nt : option Z) queries k
    (self : SciKitNearestNeighbors.t) :
  let self' := state_after (SciKitNearestNeighbors.add_items data (Some ids) nt) self in
  SciKitNearestNeighbors.fitted self' = false /\
  (forall m,
     sklearn_fit (NearestNeighbors.metric (SciKitNearestNeighbors.index self))
                 (SciKitNearestNeighbors.items self ++ data) = Ok m ->
     (SciKitNearestNeighbors.search queries k self').1
       = sklearn_kneighbors m queries (default_arg 1 k) /\
     SciKitNearestNeighbors.fitted
       (state_after (SciKitNearestNeighbors.search queries k) self') = true) /\
  (forall e,
     sklearn_fit (NearestNeighbors.metric (SciKitNearestNeighbors.index self))
                 (SciKitNearestNeighbors.items self ++ data) = Raise e ->
     SciKitNearestNeighbors.search queries k self' = (Raise e, self')).
Proof.
  intros self'.
  assert (Hf : SciKitNearestNeighbors.fitted self' = false) by reflexivity.
  split; [exact Hf |]. split.
  - intros m Hfit. unfold state_after.
    rewrite (scikit_search_unfitted queries k self' Hf).
    unfold self', state_after. simpl. by rewrite Hfit.
  - intros e Hfit. rewrite (scikit_search_unfitted queries k self' Hf).
    unfold self', state_after. simpl. by rewrite Hfit.
Qed.
End SciKitMore.

Lemma scikit_add_items_without_ids_witness :
  SciKitNearestNeighbors.get_items (Some [7]%Z)
    (state_after (SciKitNearestNeighbors.add_items (H:=example_engines) [[9; 9; 9; 9]]%Z
                    (Some [7]%Z) None)
       (state_after (SciKitNearestNeighbors.add_items example_data None None) example_scikit))
  = (Ok [[0; 0; 0; 0]%Z],
     state_after (SciKitNearestNeighbors.add_items (H:=example_engines) [[9; 9; 9; 9]]%Z
                    (Some [7]%Z) None)
       (state_after (SciKitNearestNeighbors.add_items example_data None None) example_scikit)).
Proof.
  destruct (@scikit_add_items_without_ids example_engines example_data [[9; 9; 9; 9]]%Z
              [7]%Z None example_scikit) as (_ & _ & _ & _ & Hstep).
  assert (Hnd : NoDup [7]%Z).
  { repeat constructor. intros Hin. by apply elem_of_nil in Hin. }
  exact (Hstep eq_refl eq_refl Hnd eq_refl).
Defined.

Lemma scikit_first_insert_wins_witness :
  SciKitNearestNeighbors.get_items (Some [2]%Z)
    (state_after (SciKitNearestNeighbors.add_items (H:=example_engines) [[9; 9; 9; 9]]%Z
                    (Some [2]%Z) None)
       (state_after (SciKitNearestNeighbors.add_items example_data (Some [1; 2; 3]%Z) None)
                    example_scikit))
  = (Ok [[1; 1; 1; 1]%Z],
     state_after (SciKitNearestNeighbors.add_items (H:=example_engines) [[9; 9; 9; 9]]%Z
                    (Some [2]%Z) None)
       (state_after (SciKitNearestNeighbors.add_items example_data (Some [1; 2; 3]%Z) None)
                    example_scikit)).
Proof.
  apply (@scikit_first_insert_wins example_engines [2]%Z [[1; 1; 1; 1]%Z]).
  reflexivity.
Defined.

Lemma scikit_get_items_missing_id_witness :
  SciKitNearestNeighbors.get_items (Some ([1] ++ 8 :: [2])%Z)
    (state_after (SciKitNearestNeighbors.add_items example_data (Some [1; 2; 3]%Z) None)
                 example_scikit)
  = (Raise (ValueError "8 is not in list"),
     state_after (SciKitNearestNeighbors.add_items example_data (Some [1; 2; 3]%Z) None)
                 example_scikit).
Proof.
  apply (@scikit_get_items_missing_id example_engines [1]%Z [[0; 0; 0; 0]%Z]).
  - reflexivity.
  - simpl. rewrite !not_elem_of_cons. repeat split; try discriminate. apply not_elem_of_nil.
Defined.

Lemma scikit_unpaired_id_witness :
  SciKitNearestNeighbors.get_items (Some [4]%Z)
    (state_after (SciKitNearestNeighbors.add_items example_data (Some [1; 2; 3; 4]%Z) None)
                 example_scikit)
  = (Raise (IndexError "list index out of range"),
     state_after (SciKitNearestNeighbors.add_items example_data (Some [1; 2; 3; 4]%Z) None)
                 example_scikit).
Proof.
  assert (Hnd : NoDup [1; 2; 3; 4]%Z).
  { repeat constructor; rewrite ?not_elem_of_cons; repeat split; try discriminate;
      apply not_elem_of_nil. }
  assert (Hlen : length example_data <= 3) by (simpl; lia).
  exact (proj2 (@scikit_unpaired_id example_engines example_data [1; 2; 3; 4]%Z None 3 4%Z
                  example_scikit eq_refl eq_refl Hnd eq_refl Hlen)).
Defined.

Lemma scikit_search_refits_witness :
  (SciKitNearestNeighbors.search (H:=example_engines) [[0; 0; 0; 0]]%Z (Some 2)
     (state_after (SciKitNearestNeighbors.add_items example_data (Some [1; 2; 3]%Z) None)
                  example_scikit)).1
  = Ok ([], []).
Proof.
  destruct (@scikit_search_refits example_engines example_data [1; 2; 3]%Z None
              [[0; 0; 0; 0]]%Z (Some 2) example_scikit) as (_ & Hfit & _).
  destruct (Hfit tt eq_refl) as [Hres _]. exact Hres.
Defined.

Section SciKitInit.
Context `{Engines}.

(** X20: [init()] fits the estimator on the items stored so far; a
    [search] that follows is answered by that estimator without a second
    fit, and when the fit raises [init] raises the same and the adapter
    stays unfitted. *)
Theorem scikit_init_then_search queries k (self : SciKitNearestNeighbors.t) :
  (forall m,
     sklearn_fit (NearestNeighbors.metric (SciKitNearestNeighbors.index self))
                 (SciKitNearestNeighbors.items self) = Ok m ->
     let self' := state_after SciKitNearestNeighbors.init self in
     SciKitNearestNeighbors.init self = (Ok tt, self') /\
     SciKitNearestNeighbors.fitted self' = true /\
     SciKitNearestNeighbors.search queries k self'
       = (sklearn_kneighbors m queries (default_arg 1 k), self')) /\
  (forall e,
     sklearn_fit (NearestNeighbors.metric (SciKitNearestNeighbors.index self))
                 (SciKitNearestNeighbors.items self) = Raise e ->
     SciKitNearestNeighbors.init self = (Raise e, self)).
Proof.
  split.
  - intros m Hfit self'.
    assert (Hinit : SciKitNearestNeighbors.init self
              = (Ok tt, SciKitNearestNeighbors.set_fitted true
                          (SciKitNearestNeighbors.set_index
                             (NearestNeighbors.mk
                                (NearestNeighbors.metric (SciKitNearestNeighbors.index self))
                                (NearestNeighbors.n_jobs (SciKitNearestNeighbors.index self))
                                (NearestNeighbors.n_neighbors
                                   (SciKitNearestNeighbors.index self))
                                (Some m)) self))).
    { unfold SciKitNearestNeighbors.init, bind, get, lift, NearestNeighbors.fit, modify.
      by rewrite Hfit. }
    unfold self', state_after. rewrite Hinit. simpl.
    split; [reflexivity |]. split; [reflexivity |].
    by rewrite scikit_search_fitted.
  - intros e Hfit.
    unfold SciKitNearestNeighbors.init, bind, get, lift, NearestNeighbors.fit, modify.
    rewrite Hfit. by destruct self as [? ? ? ? ? []].
Qed.
End SciKitInit.

Lemma scikit_init_then_search_witness :
  SciKitNearestNeighbors.search (H:=example_engines) [[0; 0; 0; 0]]%Z (Some 2)
    (state_after SciKitNearestNeighbors.init example_scikit)
  = (Ok ([], []), state_after SciKitNearestNeighbors.init example_scikit).
Proof.
  destruct (proj1 (@scikit_init_then_search example_engines [[0; 0; 0; 0]]%Z (Some 2)
                     example_scikit) tt eq_refl) as (_ & _ & Hsearch).
  exact Hsearch.
Defined.

(** * Further properties of the redis adapter *)

Lemma zip_take_min {A B} (l : list A) (k : list B) :
  zip l k = zip (take (length l `min` length k) l) (take (length l `min` length k) k).
Proof.
  revert k. induction l as [| x l IH]; intros [| y k]; simpl; try done.
  f_equal. apply IH.
Qed.

Section RedisMore.
Context `{Engines}.

Lemma batch_commands_key_ids partition data (ids : list Z) (key : string) :
  key ∈ Redis.command_key <$> RedisIndex.batch_commands partition data ids ->
  exists id, id ∈ ids /\ key = "item:" +:+ pretty id.
Proof.
  unfold RedisIndex.batch_commands. rewrite <- list_fmap_compose.
  intros Hin. apply list_elem_of_fmap in Hin as ([v id] & -> & Hin).
  exists id. split; [| done]. by apply elem_of_zip_r in Hin.
Qed.

Lemma redis_other_items_kept data ids partition (self : RedisIndex.t) (id : Z)
    (field : string) :
  id ∉ ids ->
  Redis.hget ("item:" +:+ pretty id) field
    (RedisIndex.redis (state_after (RedisIndex.add_items data (Some ids) partition) self))
  = Redis.hget ("item:" +:+ pretty id) field (RedisIndex.redis self).
Proof.
  intros Hid. unfold state_after. rewrite redis_add_items. simpl.
  unfold Redis.hget, Redis.execute. simpl. rewrite execute_other_key; [done |].
  intros Hkey. apply batch_commands_key_ids in Hkey as (id' & Hid' & Heq).
  apply item_key_inj in Heq. by subst id'.
Qed.

(** X15: [add_items] writes only the records of the ids of its batch:
    every field of every other item, the declared search index and the
    adapter's own parameters are left as they were. *)
Theorem redis_add_items_frame data ids partition (self : RedisIndex.t) :
  let self' := state_after (RedisIndex.add_items data (Some ids) partition) self in
  (forall id field,
     id ∉ ids ->
     Redis.hget ("item:" +:+ pretty id) field (RedisIndex.redis self')
     = Redis.hget ("item:" +:+ pretty id) field (RedisIndex.redis self)) /\
  (forall req,
     (forall id, id ∈ req -> id ∉ ids) ->
     (RedisIndex.get_items (Some req) self').1 = (RedisIndex.get_items (Some req) self).1) /\
  Redis.ft_index (RedisIndex.redis self') = Redis.ft_index (RedisIndex.redis self) /\
  RedisIndex.get_max_elements self' = (Ok (RedisIndex.max_elements self), self') /\
  RedisIndex.space self' = RedisIndex.space self /\
  RedisIndex.dim self' = RedisIndex.dim self.
Proof.
  intros self'.
  assert (Hframe : forall id field,
     id ∉ ids ->
     Redis.hget ("item:" +:+ pretty id) field (RedisIndex.redis self')
     = Redis.hget ("item:" +:+ pretty id) field (RedisIndex.redis self)).
  { intros id field Hid. by apply redis_other_items_kept. }
  assert (Hst : self' = RedisIndex.set_pipe None
            (RedisIndex.set_redis
               (Redis.execute
                  (Redis.mkPipeline false
                     (RedisIndex.batch_commands (default_arg "" partition) data ids))
                  (RedisIndex.redis self)) self)).
  { unfold self', state_after. by rewrite redis_add_items. }
  split; [exact Hframe |]. split; [| split; [| split; [| split]]];
    [| | unfold RedisIndex.get_max_elements, bind, get, ret; by rewrite Hst
     | by rewrite Hst | by rewrite Hst].
  - intros req Hreq. unfold RedisIndex.get_items, bind, get, ret. simpl. f_equal.
    induction req as [| id req IH]; [done |]. simpl. f_equal.
    + apply Hframe, Hreq. by left.
    + apply IH. intros id' Hid'. apply Hreq. by right.
  - unfold self', state_after. rewrite redis_add_items. simpl. apply execute_ft_index.
Qed.

(** X16: [add_items] pairs vectors and ids with [zip]: when the two lists
    differ in length the unpaired tail is dropped without an error, and
    the batch writes as many records as the shorter list has elements. *)
Theorem redis_add_items_truncates data ids partition (self : RedisIndex.t) :
  RedisIndex.add_items data (Some ids) partition self
  = RedisIndex.add_items (take (length data `min` length ids) data)
                         (Some (take (length data `min` length ids) ids)) partition self /\
  length (RedisIndex.batch_commands (default_arg "" partition) data ids)
  = length data `min` length ids.
Proof.
  split.
  - rewrite !redis_add_items. unfold RedisIndex.batch_commands.
    by rewrite <- zip_take_min.
  - unfold RedisIndex.batch_commands. by rewrite length_fmap, length_zip.
Qed.

(** X17: a write scope with nothing inside, [__enter__] followed by
    [__exit__], returns normally and leaves the server as it was and the
    handle closed; [__exit__] with no scope open raises [AttributeError]
    and changes nothing. *)
Theorem redis_scope (self : RedisIndex.t) :
  RedisIndex.__exit__ (state_after RedisIndex.__enter__ self)
    = (Ok tt, RedisIndex.set_pipe None self) /\
  RedisIndex.redis (state_after RedisIndex.__exit__ (state_after RedisIndex.__enter__ self))
    = RedisIndex.redis self /\
  (RedisIndex.pipe self = None ->
   RedisIndex.__exit__ self
   = (Raise (AttributeError "'NoneType' object has no attribute 'execute'"), self)).
Proof.
  split; [| split].
  - unfold state_after, RedisIndex.__enter__, RedisIndex.__exit__, RedisIndex.pipe_execute,
      modify, bind, get, put. simpl. by destruct self as [? ? ? ? ? [] ?].
  - unfold state_after, RedisIndex.__enter__, RedisIndex.__exit__, RedisIndex.pipe_execute,
      modify, bind, get, put. simpl. by destruct self as [? ? ? ? ? [] ?].
  - apply redis_exit_without_pipe.
Qed.

Lemma redis_hget_written data ids partition (self : RedisIndex.t) (j : nat) (id : Z)
    (v : list float) :
  NoDup ids -> length data = length ids ->
  ids !! j = Some id -> data !! j = Some v ->
  Redis.hget ("item:" +:+ pretty id) "embedding"
    (RedisIndex.redis (state_after (RedisIndex.add_items data (Some ids) partition) self))
  = Some (tobytes v).
Proof.
  intros Hnd Hlen Hid Hv. unfold state_after. rewrite redis_add_items. simpl.
  unfold Redis.execute. simpl.
  apply (execute_embedding _ _ _ _ (pretty id) (default_arg "" partition)).
  - rewrite batch_commands_keys by lia.
    apply (NoDup_fmap_2 _). exact Hnd.
  - unfold RedisIndex.batch_commands.
    apply (list_elem_of_fmap_2'
             (fun p : list float * Z =>
                Redis.HSET ("item:" +:+ pretty p.2)
                  [("embedding", tobytes p.1); ("item_id", pretty p.2);
                   ("partition", default_arg "" partition)]) _ (v, id)); [| done].
    apply elem_of_lookup_zip_with. by exists j, v, id.
Qed.

(** X18: [get_items] never raises on a list of ids and answers slot by
    slot: after a batch with unique ids has been written to an empty
    server, a requested id of the batch gets the float32 bytes of its
    vector and any other id gets a null slot. *)
Theorem redis_get_items_slots data ids partition req (self : RedisIndex.t) :
  Redis.hashes (RedisIndex.redis self) = ∅ ->
  NoDup ids -> length data = length ids ->
  let self' := state_after (RedisIndex.add_items data (Some ids) partition) self in
  RedisIndex.get_items (Some req) self'
  = (Ok ((fun id => tobytes <$> (list_index id ids ≫= fun j => data !! j)) <$> req), self').
Proof.
  intros Hempty Hnd Hlen self'. unfold RedisIndex.get_items, bind, get, ret. do 2 f_equal.
  induction req as [| id req IH]; [done |]. simpl. rewrite IH. f_equal.
  destruct (list_index id ids) as [j |] eqn:Hj; simpl.
  - apply list_index_lt in Hj.
    destruct (data !! j) as [v |] eqn:Hv.
    + by apply (redis_hget_written data ids partition self j id v).
    + apply lookup_ge_None in Hv. apply lookup_lt_Some in Hj. lia.
  - assert (Hid : id ∉ ids).
    { intros Hin. apply list_elem_of_lookup in Hin as [j Hjl].
      by rewrite (list_index_lookup ids j id Hnd Hjl) in Hj. }
    unfold self'. rewrite (redis_other_items_kept data ids partition self id "embedding" Hid).
    unfold Redis.hget. by rewrite Hempty, lookup_empty.
Qed.

(** X19: the constructor declares the search index and stores nothing; on
    a server whose index is already declared, as after any earlier
    construction and any batches written since, it raises
    [ResponseError], and without credentials it raises before it reaches
    the server. *)
Theorem redis_constructor space dim index_factory credentials max_elements ef_construction M
    (server : Redis.Server) :
  RedisIndex.__init__ space dim index_factory None max_elements ef_construction M server
    = Raise (Exception "Redis credentials must be provided") /\
  (forall self,
     RedisIndex.__init__ space dim index_factory (Some credentials) max_elements
       ef_construction M server = Ok self ->
     Redis.ft_index server = None /\
     Redis.hashes (RedisIndex.redis self) = Redis.hashes server /\
     RedisIndex.pipe self = None /\
     RedisIndex.max_elements self = default_arg 1024 max_elements /\
     forall data ids partition space' dim' index_factory' credentials' max_elements'
            ef_construction' M',
       RedisIndex.__init__ space' dim' index_factory' (Some credentials') max_elements'
         ef_construction' M'
         (RedisIndex.redis
            (state_after (RedisIndex.add_items data (Some ids) partition) self))
       = Raise (ResponseError "Index already exists")).
Proof.
  split; [reflexivity |]. intros self.
  unfold RedisIndex.__init__, RedisIndex.init_hnsw, bind, get, lift, Redis.create_index.
  simpl. destruct (Redis.ft_index server) eqn:Hft; [discriminate |].
  intros [= <-]. simpl. repeat split.
  intros data ids partition space' dim' index_factory' credentials' max_elements'
    ef_construction' M'.
  unfold state_after. rewrite redis_add_items. simpl. unfold Redis.execute. simpl.
  by rewrite execute_ft_index.
Qed.
End RedisMore.

Lemma redis_get_items_slots_witness :
  RedisIndex.get_items (Some [3; 8; 1]%Z)
    (state_after (RedisIndex.add_items example_data (Some [1; 2; 3]%Z) None) example_redis)
  = (Ok [Some "2;2;2;2;"; None; Some "0;0;0;0;"],
     state_after (RedisIndex.add_items example_data (Some [1; 2; 3]%Z) None) example_redis).
Proof.
  assert (Hnd : NoDup [1; 2; 3]%Z).
  { repeat constructor; rewrite ?not_elem_of_cons; repeat split; try discriminate;
      apply not_elem_of_nil. }
  exact (@redis_get_items_slots example_engines example_data [1; 2; 3]%Z None [3; 8; 1]%Z
           example_redis eq_refl Hnd eq_refl).
Defined.

Lemma redis_constructor_witness :
  RedisIndex.__init__ "COSINE" 4 None (Some [("host", "localhost")]) None None None
    (RedisIndex.redis
       (state_after (RedisIndex.add_items example_data (Some [1; 2; 3]%Z) None)
                    example_redis))
  = Raise (ResponseError "Index already exists").
Proof.
  destruct (@redis_constructor example_engines "L2" 4 None [("host", "localhost")] None None
              None (Redis.mkServer ∅ None)) as [_ Hnew].
  destruct (Hnew example_redis) as (_ & _ & _ & _ & Hagain).
  - vm_compute. reflexivity.
  - apply Hagain.
Defined.

Lemma redis_add_items_frame_witness :
  Redis.hget "item:8" "embedding"
    (RedisIndex.redis
       (state_after (RedisIndex.add_items example_data (Some [1; 2; 3]%Z) None) example_redis))
  = Redis.hget "item:8" "embedding" (RedisIndex.redis example_redis).
Proof.
  apply (proj1 (@redis_add_items_frame example_engines example_data [1; 2; 3]%Z None
                  example_redis) 8%Z "embedding").
  rewrite !not_elem_of_cons. repeat split; try discriminate. apply not_elem_of_nil.
Defined.

Lemma redis_scope_witness :
  RedisIndex.__exit__ example_redis
  = (Raise (AttributeError "'NoneType' object has no attribute 'execute'"), example_redis).
Proof.
  destruct (redis_scope example_redis) as (_ & _ & Hexit). exact (Hexit eq_refl).
Defined.
